(** * AT-HttpClient: a shallow embedding of [HttpClient] and [serializeError]

    The development follows the class [HttpClient], a facade over an axios
    instance, and [serializeError] of [src/util.ts].

    JavaScript objects live in a store and are passed by reference, so that
    the in-place assignment [config.headers = ...] of the verb methods and the
    fresh object literals of [get] and of [createHeadersWithResolvedToken]
    can be told apart.  Asynchronous code is read sequentially: one call runs
    from its start to its settlement, a rejected promise is a thrown error,
    and no other call is interleaved at an [await].  The collaborators that are
    handed in or imported (the token resolver, [uuid.v4], the dispatch of the
    axios instance to its adapter) are oracles, indexed by the number of
    calls made so far; the log function is a sink that records what it is
    given. *)

From stdpp Require Import gmap strings list fin_maps.

Open Scope string_scope.

(** ** Values *)

Abbreviation loc := positive (only parsing).

(** Data the TypeScript types leave as [any]. *)
Inductive value : Type :=
| VUndefined
| VNull
| VBool (b : bool)
| VNumber (n : Z)
| VString (s : string)
| VRef (l : loc).

(** JavaScript's ToBoolean. *)
Definition truthy (v : value) : bool :=
  match v with
  | VUndefined | VNull => false
  | VBool b => b
  | VNumber n => negb (n =? 0)%Z
  | VString s => negb (String.eqb s "")
  | VRef _ => true
  end.

(** [a ?? b] *)
Definition nullish (v : value) : bool :=
  match v with
  | VUndefined | VNull => true
  | _ => false
  end.

(** A header mapping, [Record<string, string>]. *)
Abbreviation headers_obj := (gmap string string) (only parsing).

(** The value of [headers[name]]: [undefined] when the key is absent. *)
Definition header_value (h : headers_obj) (name : string) : value :=
  match h !! name with
  | Some s => VString s
  | None => VUndefined
  end.

(** Any other object: an [AxiosRequestConfig], or a lower-level request
    object.  [obj_headers] is its [headers] property ([None] is [undefined],
    otherwise a reference to a header mapping); [obj_props] holds every other
    own property. *)
Record jsobject : Type := JsObject {
  obj_headers : option loc;
  obj_props : gmap string value
}.

Definition set_headers (h : option loc) (o : jsobject) : jsobject :=
  {| obj_headers := h; obj_props := obj_props o |}.

(** [o[name]] for a property other than [headers]. *)
Definition prop (o : jsobject) (name : string) : value :=
  default VUndefined (obj_props o !! name).

(** [AxiosResponse] *)
Record AxiosResponse : Type := {
  status : Z;
  statusText : string;
  data : value;
  response_headers : headers_obj;
  response_config : value;
  response_request : value
}.

(** An error value: [Error] with the fields [AxiosError] adds to it. *)
Record js_error : Type := {
  message : string;
  err_config : value;
  err_request : value;
  err_response : option AxiosResponse
}.

(** [new Error(msg)] *)
Definition new_Error (msg : string) : js_error :=
  {| message := msg; err_config := VUndefined; err_request := VUndefined;
     err_response := None |}.

(** What a promise may be rejected with, as far as a handler that reads
    [error.message] can tell: [undefined], [null], or an error object. *)
Inductive reason : Type :=
| ReasonUndefined
| ReasonNull
| ReasonError (error : js_error).

(** ** Observable effects *)

(** [logFunction]: the caller's sink, or [console.log]. *)
Inductive log_sink : Type :=
| ConsoleLog
| CustomLog (name : string).

Inductive log_detail : Type :=
| RequestInfo (method url : value)
| ExceptionInfo (exception : js_error)
| ExceptionValue (exception : value).      (* an exception that is no error object *)

(** The object handed to [logFunction] as its first argument. *)
Record log_event : Type := {
  title : string;
  level : string;
  log_requestId : value;
  detail : log_detail
}.

Inductive event : Type :=
| EvUuid                                   (* uuid.v4() *)
| EvTokenResolver                          (* tokenResolverFunction() *)
| EvLog (sink : log_sink) (e : log_event) (rest : list value)
| EvAdapter (config : loc).                (* the client's adapter is called *)

Definition is_resolver_call (ev : event) : bool :=
  match ev with EvTokenResolver => true | _ => false end.

Definition is_uuid_call (ev : event) : bool :=
  match ev with EvUuid => true | _ => false end.

Definition is_adapter_call (ev : event) : bool :=
  match ev with EvAdapter _ => true | _ => false end.

Definition count (p : event -> bool) (t : list event) : nat :=
  length (List.filter p t).

(** ** The world *)

Record world : Type := World {
  headerStore : gmap loc headers_obj;
  objectStore : gmap loc jsobject;
  requestId : string;                      (* [let requestId] of the module *)
  trace : list event                       (* oldest first *)
}.

Definition initial_world : world :=
  {| headerStore := ∅; objectStore := ∅; requestId := ""; trace := [] |}.

Definition resolver_calls (w : world) : nat := count is_resolver_call (trace w).
Definition uuid_calls (w : world) : nat := count is_uuid_call (trace w).
Definition adapter_calls (w : world) : nat := count is_adapter_call (trace w).

(** ** Computations that read and write the world and may throw *)

Inductive outcome (A : Type) : Type :=
| Ok (a : A)
| Throw (e : js_error).
Arguments Ok {A} a.
Arguments Throw {A} e.

Definition M (A : Type) : Type := world -> outcome A * world.

Definition ret {A} (a : A) : M A := fun w => (Ok a, w).

Definition throw {A} (e : js_error) : M A := fun w => (Throw e, w).

Definition bind {A B} (m : M A) (k : A -> M B) : M B :=
  fun w =>
    match m w with
    | (Ok a, w') => k a w'
    | (Throw e, w') => (Throw e, w')
    end.

Declare Scope js_scope.
Delimit Scope js_scope with js.
Notation "'let*' x := m 'in' k" := (bind m (fun x => k))
  (at level 10, x name, m at level 100, k at level 200) : js_scope.
Notation "m ;; k" := (bind m (fun _ => k))
  (at level 100, k at level 200, right associativity) : js_scope.
Open Scope js_scope.

Definition with_trace (t : list event) (w : world) : world :=
  {| headerStore := headerStore w; objectStore := objectStore w;
     requestId := requestId w; trace := t |}.

Definition with_headerStore (hs : gmap loc headers_obj) (w : world) : world :=
  {| headerStore := hs; objectStore := objectStore w;
     requestId := requestId w; trace := trace w |}.

Definition with_objectStore (os : gmap loc jsobject) (w : world) : world :=
  {| headerStore := headerStore w; objectStore := os;
     requestId := requestId w; trace := trace w |}.

Definition with_requestId (id : string) (w : world) : world :=
  {| headerStore := headerStore w; objectStore := objectStore w;
     requestId := id; trace := trace w |}.

(** The world after one more effect. *)
Definition record (ev : event) (w : world) : world :=
  with_trace (trace w ++ [ev]) w.

Definition emit (ev : event) : M unit :=
  fun w => (Ok tt, record ev w).

(** A header mapping written as an object literal: a new object. *)
Definition new_headers (h : headers_obj) : M loc :=
  fun w =>
    let l := fresh (dom (headerStore w)) in
    (Ok l, with_headerStore (<[l := h]> (headerStore w)) w).

(** An object literal that is not a header mapping. *)
Definition new_object (o : jsobject) : M loc :=
  fun w =>
    let l := fresh (dom (objectStore w)) in
    (Ok l, with_objectStore (<[l := o]> (objectStore w)) w).

(** A dangling reference reads as an empty object. *)
Definition headers_at (w : world) (l : loc) : headers_obj :=
  default ∅ (headerStore w !! l).

Definition object_at (w : world) (l : loc) : jsobject :=
  default (JsObject None ∅) (objectStore w !! l).

Definition read_headers (l : loc) : M headers_obj :=
  fun w => (Ok (headers_at w l), w).

Definition read_object (l : loc) : M jsobject :=
  fun w => (Ok (object_at w l), w).

(** [config.headers = h], in place. *)
Definition assign_headers (l : loc) (h : loc) : M unit :=
  fun w =>
    (Ok tt,
     with_objectStore (<[l := set_headers (Some h) (object_at w l)]> (objectStore w)) w).

(** [requestId = id], the module-level variable. *)
Definition assign_requestId (id : string) : M unit :=
  fun w => (Ok tt, with_requestId id w).

Definition read_requestId : M string := fun w => (Ok (requestId w), w).

(** A parameter with a default value: the default is evaluated only when the
    argument is [undefined]. *)
Definition default_param {A} (arg : option A) (dflt : M A) : M A :=
  match arg with
  | Some a => ret a
  | None => dflt
  end.

(** ** The token resolver *)

(** [() => Promise<string>], caller-supplied.  It is read as an oracle: its
    [n]-th invocation (counting from 0) settles with a token or rejects. *)
Definition token_resolver : Type := nat -> outcome string.

(** [await resolver()] *)
Definition await_resolver (resolver : token_resolver) : M string :=
  fun w =>
    (resolver (resolver_calls w), record EvTokenResolver w).

(** ** The transport client

    [axios] is an external collaborator.  What the facade relies on is kept:
    an instance has an adapter and two stacks of interceptors, and a request
    runs through the promise chain that [Axios.prototype.request] builds. *)

Module Axios.

(** Adapters are opaque; the enhancers of [axios-extensions] are kept as
    constructors, so that the order of wrapping can be read off. *)
Inductive Adapter : Type :=
| DefaultAdapter                                        (* axios.defaults.adapter *)
| CacheEnhanced (inner : Adapter) (options : option value)
| RetryEnhanced (inner : Adapter) (options : option value)
| CustomAdapter (name : string).

Definition cacheAdapterEnhancer (adapter : Adapter) (options : option value) : Adapter :=
  CacheEnhanced adapter options.

Definition retryAdapterEnhancer (adapter : Adapter) (options : option value) : Adapter :=
  RetryEnhanced adapter options.

(** The two handlers given to [interceptors.request.use]; either may be
    missing. *)
Record request_handlers : Type := {
  request_fulfilled : option (loc -> M loc);
  request_rejected : option (js_error -> M loc)
}.

Record response_handlers : Type := {
  response_fulfilled : option (AxiosResponse -> M AxiosResponse);
  response_rejected : option (js_error -> M AxiosResponse)
}.

Record AxiosInstance : Type := {
  adapter : Adapter;
  request_interceptors : list request_handlers;     (* in order of registration *)
  response_interceptors : list response_handlers
}.

(** [axios.create({ adapter })] *)
Definition axios_create (a : Adapter) : AxiosInstance :=
  {| adapter := a; request_interceptors := []; response_interceptors := [] |}.

Definition use_request (h : request_handlers) (inst : AxiosInstance) : AxiosInstance :=
  {| adapter := adapter inst;
     request_interceptors := request_interceptors inst ++ [h];
     response_interceptors := response_interceptors inst |}.

Definition use_response (h : response_handlers) (inst : AxiosInstance) : AxiosInstance :=
  {| adapter := adapter inst;
     request_interceptors := request_interceptors inst;
     response_interceptors := response_interceptors inst ++ [h] |}.

(** [promise.then(onFulfilled, onRejected)]; a missing handler lets the
    settlement through. *)
Definition then_ {A B} (promise : M A) (onFulfilled : A -> M B)
    (onRejected : js_error -> M B) : M B :=
  fun w =>
    match promise w with
    | (Ok a, w') => onFulfilled a w'
    | (Throw e, w') => onRejected e w'
    end.

Definition then_request (promise : M loc) (h : request_handlers) : M loc :=
  then_ promise (default ret (request_fulfilled h)) (default throw (request_rejected h)).

Definition then_response (promise : M AxiosResponse) (h : response_handlers)
  : M AxiosResponse :=
  then_ promise (default ret (response_fulfilled h)) (default throw (response_rejected h)).

(** The request config that an instance method builds from its arguments,
    [merge(config, { method, url, data })]: a new object, with the caller's
    properties and the method and URL of the call.  (axios also copies the
    header mapping and, in [Axios.prototype.request], merges the instance
    defaults into it; the method names of the instance methods are lower case
    already.) *)
Definition merge_request (method url : string) (body : option value) (config : loc)
  : M loc :=
  let* c := read_object config in
  let props := <["url" := VString url]> (<["method" := VString method]> (obj_props c)) in
  let props := match body with Some d => <["data" := d]> props | None => props end in
  new_object {| obj_headers := obj_headers c; obj_props := props |}.

Section Transport.

(** The settlement of the [n]-th dispatch, for the request config it is given:
    what [dispatchRequest] resolves or rejects with, that is the adapter's
    answer after axios has run its own transforms ([transformResponse]) on
    the data of the response. *)
Variable transport : nat -> loc -> outcome AxiosResponse.

(** [dispatchRequest]: the adapter is called, once. *)
Definition dispatchRequest (inst : AxiosInstance) (config : loc) : M AxiosResponse :=
  fun w => (transport (adapter_calls w) config, record (EvAdapter config) w).

(** The promise chain that [Axios.prototype.request] builds and runs, on the
    request config as [request] has prepared it: request interceptors run
    last-registered first, then the dispatch, then the response interceptors
    in order. *)
Definition chain (inst : AxiosInstance) (config : loc) : M AxiosResponse :=
  let sent := fold_left then_request (rev (request_interceptors inst)) (ret config) in
  let received := then_ sent (dispatchRequest inst) throw in
  fold_left then_response (response_interceptors inst) received.

(** [instance.get(url, config)] and its siblings. *)
Definition verb (method : string) (inst : AxiosInstance) (url : string)
    (body : option value) (config : loc) : M AxiosResponse :=
  let* merged := merge_request method url body config in
  chain inst merged.

End Transport.

End Axios.

(** ** The facade *)

Module HttpClient.

Import Axios.

Definition invalidToken : string := "Invalid token".

Section Client.

(** The [n]-th call of [uuid.v4()]. *)
Variable uuid_v4 : nat -> string.

(** The settlement of the [n]-th call of the adapter. *)
Variable transport : nat -> loc -> outcome AxiosResponse.

Definition call_uuid_v4 : M string :=
  fun w => (Ok (uuid_v4 (uuid_calls w)), record EvUuid w).

Record t : Type := {
  logFunction : log_sink;
  tokenResolverFunction : option token_resolver;
  client : AxiosInstance;
  enableRetry : bool;
  enableCache : bool
}.

Record HttpClientOptions : Type := {
  opt_client : option AxiosInstance;
  opt_tokenResolver : option token_resolver;
  opt_logFunction : option log_sink;
  opt_enableCache : option bool;
  opt_cacheOptions : option value;
  opt_enableRetry : option bool;
  opt_retryOptions : option value
}.

(** [v[name]], for the names the interceptors read ([config], [requestId]):
    a TypeError on [undefined] and [null], [undefined] on any other
    primitive. *)
Definition get_prop (v : value) (name : string) : M value :=
  match v with
  | VUndefined | VNull =>
      throw (new_Error ("Cannot read property '" +:+ name +:+ "' of undefined"))
  | VRef l => let* o := read_object l in ret (prop o name)
  | _ => ret VUndefined
  end.

(** [a && b] and [a || b]; the right operand is evaluated only when needed. *)
Definition js_and (a : M value) (b : value -> M value) : M value :=
  let* x := a in if truthy x then b x else ret x.

Definition js_or (a : M value) (b : M value) : M value :=
  let* x := a in if truthy x then ret x else b.

(** [v?.name] *)
Definition opt_chain (v : value) (name : string) : M value :=
  if nullish v then ret VUndefined else get_prop v name.

(** [a ?? b] *)
Definition js_coalesce (a : M value) (b : M value) : M value :=
  let* x := a in if nullish x then b else ret x.

Definition dquote : string := String (Ascii.ascii_of_nat 34) EmptyString.

Definition missing_url_message : string :=
  "HttpClient Error: " +:+ dquote +:+ "url" +:+ dquote +:+ " must be defined".

(** The first handler of [interceptors.request.use]. *)
Definition requestFulfilled (log : log_sink) (config : loc) : M loc :=
  let* id := call_uuid_v4 in
  assign_requestId id ;;
  let* rid := read_requestId in
  let* c := read_object config in
  emit (EvLog log
          {| title := "HTTP Request"; level := "INFO";
             log_requestId := VString rid;
             detail := RequestInfo (prop c "method") (prop c "url") |}
          [VBool false]) ;;
  if negb (truthy (prop c "url"))
  then throw (new_Error missing_url_message)
  else ret config.

(** [error?.config] and [error?.request] *)
Definition reason_config (error : reason) : value :=
  match error with
  | ReasonError e => err_config e
  | ReasonUndefined | ReasonNull => VUndefined
  end.

Definition reason_request (error : reason) : value :=
  match error with
  | ReasonError e => err_request e
  | ReasonUndefined | ReasonNull => VUndefined
  end.

(** [error.message]: a TypeError on [undefined] and [null]. *)
Definition reason_message (error : reason) : M string :=
  match error with
  | ReasonError e => ret (message e)
  | ReasonUndefined =>
      throw (new_Error "Cannot read property 'message' of undefined")
  | ReasonNull => throw (new_Error "Cannot read property 'message' of null")
  end.

(** The value of the [exception] field of a log event. *)
Definition reason_detail (error : reason) : log_detail :=
  match error with
  | ReasonError e => ExceptionInfo e
  | ReasonUndefined => ExceptionValue VUndefined
  | ReasonNull => ExceptionValue VNull
  end.

(** The second handler of [interceptors.request.use]. *)
Definition requestRejected (log : log_sink) (error : reason) : M loc :=
  let* rid :=
    js_coalesce
      (opt_chain (reason_config error) "requestId")
      (let* c := opt_chain (reason_request error) "config" in
       opt_chain c "requestId") in
  emit (EvLog log
          {| title := "HTTP Request Error"; level := "WARN";
             log_requestId := rid; detail := reason_detail error |} []) ;;
  let* msg := reason_message error in
  throw (new_Error msg).

(** [errorRequestId] of the second handler of [interceptors.response.use]. *)
Definition errorRequestId (error : js_error) : M value :=
  js_or
    (js_and (ret (err_config error)) (fun c => get_prop c "requestId"))
    (js_and (js_and (ret (err_request error)) (fun r => get_prop r "config"))
            (fun c => get_prop c "requestId")).

Definition responseFulfilled (response : AxiosResponse) : M AxiosResponse :=
  ret response.

Definition responseRejected (log : log_sink) (error : js_error) : M AxiosResponse :=
  let* errorRequestId := errorRequestId error in
  (if String.eqb (message error) invalidToken
   then emit (EvLog log
                {| title := "HTTP call skipped due to a token error"; level := "INFO";
                   log_requestId := errorRequestId; detail := ExceptionInfo error |} [])
   else emit (EvLog log
                {| title := "HTTP Response Error"; level := "INFO";
                   log_requestId := errorRequestId; detail := ExceptionInfo error |} [])) ;;
  throw (new_Error (message error)).

Definition facade_request_handlers (log : log_sink) : request_handlers :=
  {| request_fulfilled := Some (requestFulfilled log);
     request_rejected := Some (fun error => requestRejected log (ReasonError error)) |}.

Definition facade_response_handlers (log : log_sink) : response_handlers :=
  {| response_fulfilled := Some responseFulfilled;
     response_rejected := Some (responseRejected log) |}.

(** The adapter of the instance the constructor builds for itself. *)
Definition build_adapter (enableCache enableRetry : bool)
    (cacheOptions retryOptions : option value) : Adapter :=
  let adapters := DefaultAdapter in
  let adapters :=
    if enableCache then cacheAdapterEnhancer adapters cacheOptions else adapters in
  let adapters :=
    if enableRetry then retryAdapterEnhancer adapters retryOptions else adapters in
  adapters.

(** [new HttpClient(options)] *)
Definition constructor (options : option HttpClientOptions) : t :=
  let logFunction := default ConsoleLog (options ≫= opt_logFunction) in
  let tokenResolverFunction := options ≫= opt_tokenResolver in
  let enableCache := default false (options ≫= opt_enableCache) in
  let enableRetry := default false (options ≫= opt_enableRetry) in
  let client :=
    default
      (axios_create
         (build_adapter enableCache enableRetry
            (options ≫= opt_cacheOptions) (options ≫= opt_retryOptions)))
      (options ≫= opt_client) in
  let client := use_request (facade_request_handlers logFunction) client in
  let client := use_response (facade_response_handlers logFunction) client in
  {| logFunction := logFunction;
     tokenResolverFunction := tokenResolverFunction;
     client := client;
     enableRetry := enableRetry;
     enableCache := enableCache |}.

(** ** Header resolution *)

Definition conflict_message : string :=
  "Authorization header already specified, please create a new HttpClient with a different (or without a) tokenResolver".

Definition createHeadersWithResolvedToken (this : t) (headers : option loc)
  : M loc :=
  let* headers := default_param headers (new_headers ∅) in
  match tokenResolverFunction this with
  | Some resolver =>
      let* h := read_headers headers in
      if truthy (header_value h "Authorization")
      then throw (new_Error conflict_message)
      else
        let* token := await_resolver resolver in
        let* h := read_headers headers in
        new_headers (<["Authorization" := "Bearer " +:+ token]> h)
  | None => ret headers
  end.

(** ** Verb methods *)

Definition json_config : jsobject :=
  {| obj_headers := None; obj_props := {["responseType" := VString "json"]} |}.

Definition empty_config : jsobject :=
  {| obj_headers := None; obj_props := ∅ |}.

Definition get (this : t) (url : string) (config : option loc)
  : M AxiosResponse :=
  let* config := default_param config (new_object json_config) in
  let* c := read_object config in
  let* headers := createHeadersWithResolvedToken this (obj_headers c) in
  let* arg :=
    new_object {| obj_headers := Some headers;
                  obj_props := obj_props c ∪ {["responseType" := VString "json"]} |} in
  Axios.verb transport "get" (client this) url None arg.

Definition post (this : t) (url : string) (data : value) (config : option loc)
  : M AxiosResponse :=
  let* config := default_param config (new_object empty_config) in
  let* c := read_object config in
  let* headers := createHeadersWithResolvedToken this (obj_headers c) in
  assign_headers config headers ;;
  Axios.verb transport "post" (client this) url (Some data) config.

Definition put (this : t) (url : string) (data : value) (config : option loc)
  : M AxiosResponse :=
  let* config := default_param config (new_object empty_config) in
  let* c := read_object config in
  let* headers := createHeadersWithResolvedToken this (obj_headers c) in
  assign_headers config headers ;;
  Axios.verb transport "put" (client this) url (Some data) config.

Definition patch (this : t) (url : string) (data : value) (config : option loc)
  : M AxiosResponse :=
  let* config := default_param config (new_object empty_config) in
  let* c := read_object config in
  let* headers := createHeadersWithResolvedToken this (obj_headers c) in
  assign_headers config headers ;;
  Axios.verb transport "patch" (client this) url (Some data) config.

Definition delete (this : t) (url : string) (config : option loc)
  : M AxiosResponse :=
  let* config := default_param config (new_object empty_config) in
  let* c := read_object config in
  let* headers := createHeadersWithResolvedToken this (obj_headers c) in
  assign_headers config headers ;;
  Axios.verb transport "delete" (client this) url None config.

Definition head (this : t) (url : string) (config : option loc)
  : M AxiosResponse :=
  let* config := default_param config (new_object empty_config) in
  let* c := read_object config in
  let* headers := createHeadersWithResolvedToken this (obj_headers c) in
  assign_headers config headers ;;
  Axios.verb transport "head" (client this) url None config.

Definition options (this : t) (url : string) (config : option loc)
  : M AxiosResponse :=
  let* config := default_param config (new_object empty_config) in
  let* c := read_object config in
  let* headers := createHeadersWithResolvedToken this (obj_headers c) in
  assign_headers config headers ;;
  Axios.verb transport "options" (client this) url None config.

End Client.

End HttpClient.

(** ** [serializeError] *)

Record serialized_error : Type := {
  ser_status : Z;
  ser_statusText : string;
  ser_data : value
}.

Definition serializeError (error : js_error) : option serialized_error :=
  match err_response error with
  | None => None
  | Some response =>
      Some {| ser_status := status response;
              ser_statusText := statusText response;
              ser_data := data response |}
  end.

(** ** Concrete clients and worlds *)

Module Examples.

Import Axios HttpClient.

Definition uuids (n : nat) : string :=
  match n with
  | 0 => "0b9d6f3e-1c1a-4d6e-9a57-3f1c2d4e5f60"
  | _ => "7c1e2a44-8b0f-4f3a-b1d2-9e8f7a6b5c4d"
  end.

Definition token_of (n : nat) : outcome string := Ok "abc123".

Definition token_options : HttpClientOptions :=
  {| opt_client := None; opt_tokenResolver := Some token_of;
     opt_logFunction := Some (CustomLog "logger");
     opt_enableCache := Some true; opt_cacheOptions := Some (VRef 9);
     opt_enableRetry := Some true; opt_retryOptions := None |}.

Definition own_instance : AxiosInstance := axios_create (CustomAdapter "mine").

Definition supplied_options : HttpClientOptions :=
  {| opt_client := Some own_instance; opt_tokenResolver := None;
     opt_logFunction := None;
     opt_enableCache := Some true; opt_cacheOptions := None;
     opt_enableRetry := Some true; opt_retryOptions := None |}.

(** [new HttpClient()] *)
Definition plain_client : HttpClient.t := constructor uuids None.

(** [new HttpClient({ tokenResolver, logFunction, enableCache: true, ... })] *)
Definition token_client : HttpClient.t := constructor uuids (Some token_options).

(** One header mapping at 1 and one config object at 1 that refers to it. *)
Definition world_with (h : headers_obj) (props : gmap string value) : world :=
  {| headerStore := {[ 1%positive := h ]};
     objectStore := {[ 1%positive := {| obj_headers := Some 1%positive; obj_props := props |} ]};
     requestId := "";
     trace := [] |}.

Definition accept_only : headers_obj := {[ "Accept" := "text/plain" ]}.

Definition bearer_z : headers_obj := {[ "Authorization" := "Bearer z" ]}.

Definition empty_authorization : headers_obj :=
  {[ "Authorization" := ""; "Accept" := "text/plain" ]}.

Definition lower_case_authorization : headers_obj :=
  {[ "authorization" := "Bearer z" ]}.

Definition timeout_prop : gmap string value := {[ "timeout" := VNumber 3000 ]}.

(** A transport that never answers: every adapter call rejects with a
    network error that carries the request config, as axios builds it. *)
Definition network_down (n : nat) (config : loc) : outcome AxiosResponse :=
  Throw {| message := "Network Error"; err_config := VRef config;
           err_request := VUndefined; err_response := None |}.

Definition not_found : AxiosResponse :=
  {| status := 404; statusText := "Not Found"; data := VString "no such thing";
     response_headers := ∅; response_config := VUndefined;
     response_request := VUndefined |}.

End Examples.

(** The titles and request ids of the log events of a trace, in order. *)
Definition logged (t : list event) : list (string * value) :=
  omap (fun ev => match ev with
                  | EvLog _ e _ => Some (title e, log_requestId e)
                  | _ => None
                  end) t.

(** An instance that carries no interceptors of the caller's own. *)
Definition no_interceptors (inst : Axios.AxiosInstance) : Prop :=
  Axios.request_interceptors inst = [] /\ Axios.response_interceptors inst = [].

(** Options that either leave the client to the constructor or supply one
    without interceptors. *)
Definition plain_transport (options : option HttpClient.HttpClientOptions) : Prop :=
  forall inst, options ≫= HttpClient.opt_client = Some inst -> no_interceptors inst.

(** A computation that yields a value and leaves the world alone. *)
Definition pure_at {A} (m : M A) (w : world) : Prop :=
  exists a, m w = (Ok a, w).

(** ** More concrete clients, worlds and transports *)

Module MoreExamples.

Import Axios HttpClient.

(** A token service that is down. *)
Definition service_down : js_error :=
  {| message := "token service down"; err_config := VUndefined;
     err_request := VUndefined; err_response := Some Examples.not_found |}.

Definition rejecting (n : nat) : outcome string := Throw service_down.

Definition rejecting_options : HttpClientOptions :=
  {| opt_client := None; opt_tokenResolver := Some rejecting;
     opt_logFunction := None;
     opt_enableCache := None; opt_cacheOptions := None;
     opt_enableRetry := None; opt_retryOptions := None |}.

Definition ok_response : AxiosResponse :=
  {| status := 200; statusText := "OK"; data := VRef 7;
     response_headers := {[ "content-type" := "application/json" ]};
     response_config := VUndefined; response_request := VUndefined |}.

(** A transport that answers every call with the same response. *)
Definition answering (n : nat) (config : loc) : outcome AxiosResponse :=
  Ok ok_response.

(** The properties of a request config as an instance method builds it. *)
Definition get_x : gmap string value :=
  {[ "method" := VString "get"; "url" := VString "https://api.example/x" ]}.


(** A caller's config that sets [responseType] to [undefined]. *)
Definition undefined_response_type : gmap string value :=
  {[ "responseType" := VUndefined; "timeout" := VNumber 3000 ]}.






End MoreExamples.

(** ** Vocabulary for statements about whole calls *)

(** The event that the outbound interceptor logs for the config [c] under the
    generated id. *)
Definition request_event (id : string) (c : jsobject) : log_event :=
  {| title := "HTTP Request"; level := "INFO"; log_requestId := VString id;
     detail := RequestInfo (prop c "method") (prop c "url") |}.

(** The id that the failure handler of the inbound interceptor recovers from
    an error, in a given world. *)
Definition recovered_id (w : world) (error : js_error) : value :=
  match fst (HttpClient.errorRequestId error w) with
  | Ok v => v
  | Throw _ => VUndefined
  end.

(** The event that the failure handler of the inbound interceptor logs. *)
Definition failure_event (w : world) (error : js_error) : log_event :=
  {| title := if String.eqb (message error) HttpClient.invalidToken
              then "HTTP call skipped due to a token error"
              else "HTTP Response Error";
     level := "INFO"; log_requestId := recovered_id w error;
     detail := ExceptionInfo error |}.

(** The request config that an instance method builds, as a value. *)
Definition merged_config (method url : string) (body : option value) (c : jsobject)
  : jsobject :=
  let props := <["url" := VString url]> (<["method" := VString method]> (obj_props c)) in
  {| obj_headers := obj_headers c;
     obj_props := match body with Some d => <["data" := d]> props | None => props end |}.





(** A facade whose client carries, at the time of a call, the facade's own
    pair of interceptors and no other. *)
Definition own_interceptors_only (uuid_v4 : nat -> string) (this : HttpClient.t)
  : Prop :=
  Axios.request_interceptors (HttpClient.client this)
    = [HttpClient.facade_request_handlers uuid_v4 (HttpClient.logFunction this)] /\
  Axios.response_interceptors (HttpClient.client this)
    = [HttpClient.facade_response_handlers (HttpClient.logFunction this)].

(** A property of each of the six methods that assign to their [config]
    parameter, called with the same arguments. *)
Definition every_assigning_verb (transport : nat -> loc -> outcome AxiosResponse)
    (this : HttpClient.t) (url : string) (body : value) (config : option loc)
    (P : M AxiosResponse -> Prop) : Prop :=
  P (HttpClient.post transport this url body config) /\
  P (HttpClient.put transport this url body config) /\
  P (HttpClient.patch transport this url body config) /\
  P (HttpClient.delete transport this url config) /\
  P (HttpClient.head transport this url config) /\
  P (HttpClient.options transport this url config).

(** A property of each of the seven verb methods. *)
Definition every_verb (transport : nat -> loc -> outcome AxiosResponse)
    (this : HttpClient.t) (url : string) (body : value) (config : option loc)
    (P : M AxiosResponse -> Prop) : Prop :=
  P (HttpClient.get transport this url config) /\
  every_assigning_verb transport this url body config P.

(** ** Basic facts about the world and the monad *)

Lemma count_snoc (p : event -> bool) (t : list event) (ev : event) :
  count p (t ++ [ev]) = count p t + (if p ev then 1 else 0).
Proof.
  unfold count. rewrite List.filter_app, length_app. simpl.
  destruct (p ev); reflexivity.
Qed.

Lemma resolver_calls_record_resolver (w : world) :
  resolver_calls (record EvTokenResolver w) = S (resolver_calls w).
Proof. unfold resolver_calls, record. simpl. rewrite count_snoc. simpl. lia. Qed.

Lemma fresh_header_loc (w : world) :
  headerStore w !! fresh (dom (headerStore w)) = None.
Proof. apply not_elem_of_dom, is_fresh. Qed.

Lemma fresh_object_loc (w : world) :
  objectStore w !! fresh (dom (objectStore w)) = None.
Proof. apply not_elem_of_dom, is_fresh. Qed.

Lemma headers_at_Some (w : world) (l : loc) (h : headers_obj) :
  headerStore w !! l = Some h -> headers_at w l = h.
Proof. intros H. unfold headers_at. rewrite H. reflexivity. Qed.

Lemma object_at_Some (w : world) (l : loc) (o : jsobject) :
  objectStore w !! l = Some o -> object_at w l = o.
Proof. intros H. unfold object_at. rewrite H. reflexivity. Qed.

Lemma record_neq (ev : event) (w : world) : record ev w <> w.
Proof.
  intros H. apply (f_equal trace) in H. simpl in H.
  apply (f_equal length) in H. rewrite length_app in H. simpl in H. lia.
Qed.

Lemma header_value_truthy (h : headers_obj) (name : string) :
  truthy (header_value h name) = true <->
  exists s, h !! name = Some s /\ s <> "".
Proof.
  unfold header_value. destruct (h !! name) as [s|] eqn:E; simpl.
  - rewrite negb_true_iff. split.
    + intros Hs. exists s. split; [reflexivity|].
      intros ->. discriminate.
    + intros (s' & [= <-] & Hne). apply String.eqb_neq. exact Hne.
  - split; [discriminate|]. intros (s & Hs & _). discriminate.
Qed.

(** ** Header resolution *)

Section HeaderResolution.

Import HttpClient.

Variable this : HttpClient.t.

(** What the call does once a resolver is configured, by cases on whether
    [headers.Authorization] is truthy. *)
Lemma createHeaders_with_resolver (resolver : token_resolver) (l : loc) (w : world) :
  tokenResolverFunction this = Some resolver ->
  createHeadersWithResolvedToken this (Some l) w =
    if truthy (header_value (headers_at w l) "Authorization")
    then (Throw (new_Error conflict_message), w)
    else
      match resolver (resolver_calls w) with
      | Ok token =>
          new_headers (<["Authorization" := "Bearer " +:+ token]> (headers_at w l))
            (record EvTokenResolver w)
      | Throw e => (Throw e, record EvTokenResolver w)
      end.
Proof.
  intros Hres. unfold createHeadersWithResolvedToken. rewrite Hres.
  unfold default_param, bind, ret, read_headers. simpl.
  destruct (truthy (header_value (headers_at w l) "Authorization")); [reflexivity|].
  unfold await_resolver.
  destruct (resolver (resolver_calls w)); reflexivity.
Qed.

Lemma createHeaders_objectStore (headers : option loc) (w : world) :
  objectStore (snd (createHeadersWithResolvedToken this headers w)) = objectStore w.
Proof.
  unfold createHeadersWithResolvedToken, default_param, bind, ret, read_headers,
    await_resolver, throw, new_headers.
  destruct headers as [l|]; simpl;
    destruct (tokenResolverFunction this) as [resolver|]; simpl;
    try reflexivity.
  - destruct (truthy _); simpl; [reflexivity|].
    destruct (resolver _); reflexivity.
  - destruct (truthy _); simpl; [reflexivity|].
    destruct (resolver _); reflexivity.
Qed.

End HeaderResolution.

Section HeaderClaims.

Import HttpClient.

Variable transport : nat -> loc -> outcome AxiosResponse.

(** C3.  Without a token resolver [createHeadersWithResolvedToken] returns the
    very mapping it was given, whatever that mapping holds (an
    [Authorization] entry included), and changes nothing: no object is
    created, no resolver or transport is called. *)
Theorem C3_no_resolver_returns_input
    (this : HttpClient.t) (l : loc) (h : headers_obj) (w : world) :
  tokenResolverFunction this = None ->
  headerStore w !! l = Some h ->
  createHeadersWithResolvedToken this (Some l) w = (Ok l, w) /\
  headerStore (snd (createHeadersWithResolvedToken this (Some l) w)) !! l = Some h.
Proof.
  intros Hnone Hl.
  assert (E : createHeadersWithResolvedToken this (Some l) w = (Ok l, w)).
  { unfold createHeadersWithResolvedToken. rewrite Hnone. reflexivity. }
  rewrite E. split; [reflexivity | exact Hl].
Qed.

(** C1, as the code has it.  With a token resolver configured, a mapping whose
    [Authorization] entry is a non-empty string makes
    [createHeadersWithResolvedToken], and each of the seven verb methods given
    a config with such headers, throw the configuration-conflict error and
    leave the world as it was: the resolver is not invoked and the transport
    is not reached. *)
Theorem C1_conflict_on_nonempty_authorization
    (this : HttpClient.t) (resolver : token_resolver)
    (l c : loc) (h : headers_obj) (o : jsobject) (s url : string) (body : value)
    (w : world) :
  tokenResolverFunction this = Some resolver ->
  headerStore w !! l = Some h ->
  h !! "Authorization" = Some s ->
  s <> "" ->
  objectStore w !! c = Some o ->
  obj_headers o = Some l ->
  createHeadersWithResolvedToken this (Some l) w
    = (Throw (new_Error conflict_message), w) /\
  get transport this url (Some c) w = (Throw (new_Error conflict_message), w) /\
  post transport this url body (Some c) w = (Throw (new_Error conflict_message), w) /\
  put transport this url body (Some c) w = (Throw (new_Error conflict_message), w) /\
  patch transport this url body (Some c) w = (Throw (new_Error conflict_message), w) /\
  HttpClient.delete transport this url (Some c) w
    = (Throw (new_Error conflict_message), w) /\
  HttpClient.head transport this url (Some c) w
    = (Throw (new_Error conflict_message), w) /\
  options transport this url (Some c) w = (Throw (new_Error conflict_message), w).
Proof.
  intros Hres Hl Hauth Hs Hc Ho.
  assert (E : createHeadersWithResolvedToken this (Some l) w
              = (Throw (new_Error conflict_message), w)).
  { rewrite (createHeaders_with_resolver this resolver l w Hres).
    rewrite (headers_at_Some w l h Hl).
    assert (T : truthy (header_value h "Authorization") = true).
    { apply header_value_truthy. exists s. split; assumption. }
    rewrite T. reflexivity. }
  split; [exact E|].
  unfold get, post, put, patch, HttpClient.delete, HttpClient.head, options.
  unfold default_param, bind, ret, read_object. simpl.
  rewrite (object_at_Some w c o Hc), Ho, E.
  repeat split.
Qed.

(** C2.  With a token resolver configured and no [Authorization] key in the
    input, the resolver is invoked exactly once; when it yields a token, the
    result is a new mapping that is the input with the one entry
    [Authorization: Bearer <token>] added, every other entry kept, and the
    input mapping itself is left as it was; when it rejects, the rejection is
    what the call ends with. *)
Theorem C2_injects_bearer_token
    (this : HttpClient.t) (resolver : token_resolver)
    (l : loc) (h : headers_obj) (w : world) :
  tokenResolverFunction this = Some resolver ->
  headerStore w !! l = Some h ->
  h !! "Authorization" = None ->
  let r := createHeadersWithResolvedToken this (Some l) w in
  resolver_calls (snd r) = S (resolver_calls w) /\
  adapter_calls (snd r) = adapter_calls w /\
  match resolver (resolver_calls w) with
  | Ok token =>
      exists l' : loc,
        fst r = Ok l' /\
        headerStore w !! l' = None /\
        headerStore (snd r) !! l' = Some (<["Authorization" := "Bearer " +:+ token]> h) /\
        (<["Authorization" := "Bearer " +:+ token]> h) !! "Authorization"
          = Some ("Bearer " +:+ token) /\
        (forall k, k <> "Authorization" ->
           (<["Authorization" := "Bearer " +:+ token]> h) !! k = h !! k) /\
        size (<["Authorization" := "Bearer " +:+ token]> h) = S (size h) /\
        headerStore (snd r) !! l = Some h
  | Throw e => fst r = Throw e
  end.
Proof.
  intros Hres Hl Hauth r. subst r.
  rewrite (createHeaders_with_resolver this resolver l w Hres).
  rewrite (headers_at_Some w l h Hl).
  unfold header_value. rewrite Hauth. simpl.
  destruct (resolver (resolver_calls w)) as [token|e]; simpl.
  - split; [apply resolver_calls_record_resolver|].
    split. { unfold adapter_calls. simpl. rewrite count_snoc. simpl. lia. }
    exists (fresh (dom (headerStore w))).
    split; [reflexivity|].
    split; [apply fresh_header_loc|].
    split; [apply lookup_insert_eq|].
    split; [apply lookup_insert_eq|].
    split. { intros k Hk. apply lookup_insert_ne. congruence. }
    split. { apply map_size_insert_None. exact Hauth. }
    rewrite lookup_insert_ne; [exact Hl|].
    intros E. pose proof (fresh_header_loc w) as F. rewrite E in F. congruence.
  - split; [apply resolver_calls_record_resolver|].
    split; [|reflexivity].
    unfold adapter_calls. simpl. rewrite count_snoc. simpl. lia.
Qed.

(** C10.  With a token resolver configured the conflict error is thrown
    exactly when the key [Authorization], spelled so, is bound to a non-empty
    string.  A mapping that has [authorization] but not [Authorization], or
    that binds [Authorization] to the empty string, passes the check: the
    resolver is invoked once and, when it yields a token, the returned mapping
    binds [Authorization] to [Bearer <token>]. *)
Theorem C10_conflict_check_is_exact_key_and_truthy
    (this : HttpClient.t) (resolver : token_resolver)
    (l : loc) (h : headers_obj) (w : world) :
  tokenResolverFunction this = Some resolver ->
  headerStore w !! l = Some h ->
  (createHeadersWithResolvedToken this (Some l) w
     = (Throw (new_Error conflict_message), w)
   <-> exists s, h !! "Authorization" = Some s /\ s <> "") /\
  (forall token : string,
     resolver (resolver_calls w) = Ok token ->
     (h !! "Authorization" = None /\ is_Some (h !! "authorization"))
       \/ h !! "Authorization" = Some "" ->
     exists (l' : loc) (w' : world),
       createHeadersWithResolvedToken this (Some l) w = (Ok l', w') /\
       resolver_calls w' = S (resolver_calls w) /\
       headerStore w' !! l' = Some (<["Authorization" := "Bearer " +:+ token]> h)).
Proof.
  intros Hres Hl.
  rewrite (createHeaders_with_resolver this resolver l w Hres).
  rewrite (headers_at_Some w l h Hl).
  split.
  - rewrite <- header_value_truthy.
    destruct (truthy (header_value h "Authorization")).
    + split; reflexivity.
    + split; [|discriminate].
      destruct (resolver (resolver_calls w)) as [token|e];
        unfold new_headers; intros E.
      * discriminate E.
      * injection E as _ Hw. exfalso. exact (record_neq EvTokenResolver w Hw).
  - intros token Htok Hcase.
    assert (F : truthy (header_value h "Authorization") = false).
    { unfold header_value.
      destruct Hcase as [[Hn _] | He]; [rewrite Hn | rewrite He]; reflexivity. }
    rewrite F, Htok. unfold new_headers.
    eexists _, _. split; [reflexivity|]. simpl.
    split; [apply resolver_calls_record_resolver|].
    apply lookup_insert_eq.
Qed.

End HeaderClaims.

Lemma C3_witness :
  HttpClient.createHeadersWithResolvedToken Examples.plain_client (Some 1%positive)
    (Examples.world_with Examples.bearer_z ∅)
  = (Ok 1%positive, Examples.world_with Examples.bearer_z ∅) /\
  headerStore
    (snd (HttpClient.createHeadersWithResolvedToken Examples.plain_client
            (Some 1%positive) (Examples.world_with Examples.bearer_z ∅)))
    !! 1%positive = Some Examples.bearer_z.
Proof.
  apply (C3_no_resolver_returns_input Examples.plain_client 1%positive
           Examples.bearer_z (Examples.world_with Examples.bearer_z ∅)).
  - reflexivity.
  - vm_compute. reflexivity.
Defined.

(** C1 as stated fails: the mapping [{ Authorization: '', Accept: 'text/plain' }]
    contains the key, a resolver is configured, and yet the call does not
    throw; it invokes the resolver and returns a mapping. *)
Lemma C1_counterexample :
  HttpClient.tokenResolverFunction Examples.token_client = Some Examples.token_of /\
  headerStore (Examples.world_with Examples.empty_authorization ∅) !! 1%positive
    = Some Examples.empty_authorization /\
  Examples.empty_authorization !! "Authorization" = Some "" /\
  (forall e w',
     HttpClient.createHeadersWithResolvedToken Examples.token_client (Some 1%positive)
       (Examples.world_with Examples.empty_authorization ∅) <> (Throw e, w')) /\
  resolver_calls
    (snd (HttpClient.createHeadersWithResolvedToken Examples.token_client
            (Some 1%positive) (Examples.world_with Examples.empty_authorization ∅)))
  = 1.
Proof.
  split; [reflexivity|].
  split; [vm_compute; reflexivity|].
  split; [vm_compute; reflexivity|].
  split; [|vm_compute; reflexivity].
  intros e w' H. apply (f_equal fst) in H. vm_compute in H. discriminate H.
Qed.

Lemma C1_witness :
  HttpClient.createHeadersWithResolvedToken Examples.token_client (Some 1%positive)
    (Examples.world_with Examples.bearer_z Examples.timeout_prop)
  = (Throw (new_Error HttpClient.conflict_message),
     Examples.world_with Examples.bearer_z Examples.timeout_prop) /\
  HttpClient.post Examples.network_down Examples.token_client
    "https://api.example/x" (VNumber 2) (Some 1%positive)
    (Examples.world_with Examples.bearer_z Examples.timeout_prop)
  = (Throw (new_Error HttpClient.conflict_message),
     Examples.world_with Examples.bearer_z Examples.timeout_prop).
Proof.
  pose proof
    (C1_conflict_on_nonempty_authorization Examples.network_down
       Examples.token_client Examples.token_of 1%positive 1%positive
       Examples.bearer_z
       {| obj_headers := Some 1%positive; obj_props := Examples.timeout_prop |}
       "Bearer z" "https://api.example/x" (VNumber 2)
       (Examples.world_with Examples.bearer_z Examples.timeout_prop)) as H.
  destruct H as (Hc & _ & Hp & _).
  - reflexivity.
  - vm_compute. reflexivity.
  - vm_compute. reflexivity.
  - discriminate.
  - vm_compute. reflexivity.
  - reflexivity.
  - split; [exact Hc | exact Hp].
Defined.

Lemma C2_witness :
  let w := Examples.world_with Examples.accept_only ∅ in
  let r := HttpClient.createHeadersWithResolvedToken Examples.token_client
             (Some 1%positive) w in
  resolver_calls (snd r) = 1 /\
  fst r = Ok 2%positive /\
  headerStore (snd r) !! 2%positive
    = Some (<["Authorization" := "Bearer abc123"]> Examples.accept_only) /\
  headerStore (snd r) !! 1%positive = Some Examples.accept_only.
Proof.
  intros w r.
  pose proof
    (C2_injects_bearer_token Examples.token_client Examples.token_of 1%positive
       Examples.accept_only w) as H.
  destruct H as (Hn & _ & l' & Hl' & _ & Hnew & _ & _ & _ & Hold).
  - reflexivity.
  - vm_compute. reflexivity.
  - vm_compute. reflexivity.
  - split; [exact Hn|].
    assert (E : l' = 2%positive).
    { change (fst r = Ok l') in Hl'. vm_compute in Hl'. congruence. }
    subst l'. split; [reflexivity|]. split; [exact Hnew | exact Hold].
Defined.

Lemma C10_witness :
  let w := Examples.world_with Examples.lower_case_authorization ∅ in
  exists (l' : loc) (w' : world),
    HttpClient.createHeadersWithResolvedToken Examples.token_client
      (Some 1%positive) w = (Ok l', w') /\
    resolver_calls w' = 1 /\
    headerStore w' !! l'
      = Some (<["Authorization" := "Bearer abc123"]> Examples.lower_case_authorization).
Proof.
  intros w.
  pose proof
    (C10_conflict_check_is_exact_key_and_truthy Examples.token_client
       Examples.token_of 1%positive Examples.lower_case_authorization w) as H.
  destruct H as (_ & H).
  - reflexivity.
  - vm_compute. reflexivity.
  - apply (H "abc123").
    + reflexivity.
    + left. split; [vm_compute; reflexivity | exists "Bearer z"; vm_compute; reflexivity].
Defined.

(** ** The interceptors *)

Section Interceptors.

Import Axios HttpClient.

Variable uuid_v4 : nat -> string.
Variable transport : nat -> loc -> outcome AxiosResponse.

Lemma get_prop_truthy (v : value) (name : string) (w : world) :
  truthy v = true -> pure_at (get_prop v name) w.
Proof.
  unfold pure_at, get_prop.
  destruct v; simpl; intros T; try discriminate; eexists; reflexivity.
Qed.

Lemma js_and_pure (a : M value) (b : value -> M value) (w : world) :
  pure_at a w ->
  (forall x, truthy x = true -> pure_at (b x) w) ->
  pure_at (js_and a b) w.
Proof.
  intros [x Hx] Hb. unfold pure_at, js_and, bind. rewrite Hx.
  destruct (truthy x) eqn:T.
  - apply Hb, T.
  - exists x. reflexivity.
Qed.

Lemma js_or_pure (a b : M value) (w : world) :
  pure_at a w -> pure_at b w -> pure_at (js_or a b) w.
Proof.
  intros [x Hx] Hb. unfold pure_at, js_or, bind. rewrite Hx.
  destruct (truthy x).
  - exists x. reflexivity.
  - exact Hb.
Qed.

(** The guards of [errorRequestId] keep every property access away from
    [undefined] and [null]: it always yields a value and changes nothing. *)
Lemma errorRequestId_total (error : js_error) (w : world) :
  pure_at (errorRequestId error) w.
Proof.
  unfold errorRequestId.
  apply js_or_pure; repeat apply js_and_pure;
    try (intros x T; apply get_prop_truthy, T);
    eexists; reflexivity.
Qed.

(** The request id of the failure log is read from the failed request's
    config: for an error that carries its config and no lower-level request,
    it is that config's own [requestId] property when that is truthy, and
    [undefined] otherwise. *)
Lemma errorRequestId_of_config (error : js_error) (c : loc) (w : world) :
  err_config error = VRef c ->
  err_request error = VUndefined ->
  errorRequestId error w =
    (Ok (if truthy (prop (object_at w c) "requestId")
         then prop (object_at w c) "requestId" else VUndefined), w).
Proof.
  intros Hc Hr. unfold errorRequestId, js_or, js_and, bind, ret.
  rewrite Hc, Hr. simpl.
  destruct (truthy (prop (object_at w c) "requestId")); reflexivity.
Qed.

(** C5.  The failure handler of the inbound interceptor emits exactly one log
    event, carrying the error; its title is "HTTP call skipped due to a token
    error" when the error's message is "Invalid token" and "HTTP Response
    Error" for every other message; and the handler always ends by throwing
    an error with the message of the one it received. *)
Theorem C5_failure_title_and_rethrow (log : log_sink) (error : js_error) (w : world) :
  exists (thrown : js_error) (ev : log_event) (w' : world),
    responseRejected log error w = (Throw thrown, w') /\
    message thrown = message error /\
    w' = record (EvLog log ev []) w /\
    detail ev = ExceptionInfo error /\
    level ev = "INFO" /\
    (message error = "Invalid token" ->
       title ev = "HTTP call skipped due to a token error") /\
    (message error <> "Invalid token" -> title ev = "HTTP Response Error").
Proof.
  destruct (errorRequestId_total error w) as [rid Hrid].
  unfold responseRejected, bind. rewrite Hrid.
  unfold invalidToken.
  destruct (String.eqb (message error) "Invalid token") eqn:E.
  - apply String.eqb_eq in E.
    eexists _, _, _. split; [reflexivity|]. simpl.
    repeat split; try reflexivity. intros Hne. contradiction.
  - apply String.eqb_neq in E.
    eexists _, _, _. split; [reflexivity|]. simpl.
    repeat split; try reflexivity. intros He. contradiction.
Qed.

(** What [responseRejected] does, as one equation. *)
Lemma responseRejected_eq (log : log_sink) (error : js_error) (w : world) :
  exists rid,
    errorRequestId error w = (Ok rid, w) /\
    responseRejected log error w =
      (Throw (new_Error (message error)),
       record (EvLog log
                 {| title := if String.eqb (message error) invalidToken
                             then "HTTP call skipped due to a token error"
                             else "HTTP Response Error";
                    level := "INFO"; log_requestId := rid;
                    detail := ExceptionInfo error |} []) w).
Proof.
  destruct (errorRequestId_total error w) as [rid Hrid].
  exists rid. split; [exact Hrid|].
  unfold responseRejected, bind. rewrite Hrid.
  destruct (String.eqb (message error) invalidToken); reflexivity.
Qed.

(** What [requestFulfilled] does, as one equation. *)
Lemma requestFulfilled_eq (log : log_sink) (config : loc) (w : world) :
  let id := uuid_v4 (uuid_calls w) in
  let c := object_at w config in
  let w' :=
    record (EvLog log
              {| title := "HTTP Request"; level := "INFO";
                 log_requestId := VString id;
                 detail := RequestInfo (prop c "method") (prop c "url") |}
              [VBool false])
      (with_requestId id (record EvUuid w)) in
  requestFulfilled uuid_v4 log config w =
    if truthy (prop c "url") then (Ok config, w')
    else (Throw (new_Error missing_url_message), w').
Proof.
  simpl. unfold requestFulfilled, bind, call_uuid_v4, assign_requestId,
    read_requestId, read_object, emit. simpl.
  unfold object_at. simpl.
  destruct (truthy (prop (default (JsObject None ∅) (objectStore w !! config)) "url"));
    reflexivity.
Qed.

(** The promise chain of an instance that carries the facade's pair of
    interceptors and no other. *)
Lemma request_through_facade (log : log_sink) (inst : AxiosInstance)
    (config : loc) (w : world) :
  request_interceptors inst = [facade_request_handlers uuid_v4 log] ->
  response_interceptors inst = [facade_response_handlers log] ->
  Axios.chain transport inst config w =
    match requestFulfilled uuid_v4 log config w with
    | (Ok c, w1) =>
        match dispatchRequest transport inst c w1 with
        | (Ok response, w2) => (Ok response, w2)
        | (Throw e, w2) => responseRejected log e w2
        end
    | (Throw e, w1) => responseRejected log e w1
    end.
Proof.
  intros Hq Hs. unfold Axios.chain. rewrite Hq, Hs. simpl.
  unfold then_response, then_request, then_, facade_response_handlers,
    facade_request_handlers, ret, throw, responseFulfilled. simpl.
  destruct (requestFulfilled uuid_v4 log config w) as [[c|e] w1]; [|reflexivity].
  unfold dispatchRequest.
  destruct (transport (adapter_calls w1) c) as [r|e]; reflexivity.
Qed.

(** The client of a facade constructed over plain transport options. *)
Lemma constructor_interceptors (options : option HttpClientOptions) :
  plain_transport options ->
  let this := constructor uuid_v4 options in
  request_interceptors (client this)
    = [facade_request_handlers uuid_v4 (logFunction this)] /\
  response_interceptors (client this)
    = [facade_response_handlers (logFunction this)].
Proof.
  intros Hplain. unfold constructor. simpl.
  destruct (options ≫= opt_client) as [inst|] eqn:E; simpl.
  - destruct (Hplain inst E) as [Hq Hs]. rewrite Hq, Hs. split; reflexivity.
  - split; reflexivity.
Qed.

End Interceptors.

Lemma adapter_calls_record (ev : event) (w : world) :
  adapter_calls (record ev w)
  = adapter_calls w + (if is_adapter_call ev then 1 else 0).
Proof. unfold adapter_calls, record. simpl. apply count_snoc. Qed.

Lemma logged_record (ev : event) (w : world) :
  logged (trace (record ev w)) = (logged (trace w) ++ logged [ev])%list.
Proof. unfold logged, record, with_trace, trace. apply omap_app. Qed.

Section RequestClaims.

Import Axios HttpClient.

Variable uuid_v4 : nat -> string.
Variable transport : nat -> loc -> outcome AxiosResponse.








(** The failure log of a request that the transport rejects with an error
    carrying the request config (as axios builds it): the id that the
    outbound interceptor generated is in the module-level variable and in the
    request log, while the failure log reads the config's own [requestId]
    property, which the interceptor never set. *)
Lemma failure_log_reads_config_property
    (options : option HttpClientOptions) (config : loc) (c : jsobject)
    (e : js_error) (w : world) :
  plain_transport options ->
  objectStore w !! config = Some c ->
  truthy (prop c "url") = true ->
  prop c "requestId" = VUndefined ->
  transport (adapter_calls w) config = Throw e ->
  err_config e = VRef config ->
  err_request e = VUndefined ->
  message e <> "Invalid token" ->
  exists w',
    Axios.chain transport (client (constructor uuid_v4 options)) config w
      = (Throw (new_Error (message e)), w') /\
    requestId w' = uuid_v4 (uuid_calls w) /\
    logged (trace w')
      = (logged (trace w)
         ++ [("HTTP Request", VString (uuid_v4 (uuid_calls w)));
             ("HTTP Response Error", VUndefined)])%list.
Proof.
  intros Hplain Hc Hurl Hrid Ht Hec Her Hmsg.
  destruct (constructor_interceptors uuid_v4 options Hplain) as [Hq Hs].
  rewrite (request_through_facade uuid_v4 transport _ _ config w Hq Hs).
  generalize (logFunction (constructor uuid_v4 options)). intros lg.
  pose proof (requestFulfilled_eq uuid_v4 lg config w) as R.
  simpl in R. rewrite (object_at_Some w config c Hc), Hurl in R. rewrite R.
  unfold dispatchRequest.
  rewrite adapter_calls_record. simpl.
  change (adapter_calls (with_requestId (uuid_v4 (uuid_calls w)) (record EvUuid w)))
    with (adapter_calls (record EvUuid w)).
  rewrite adapter_calls_record. simpl.
  replace (adapter_calls w + 0 + 0) with (adapter_calls w) by lia.
  rewrite Ht.
  match goal with |- context [responseRejected ?lg e ?w1] =>
    destruct (responseRejected_eq lg e w1) as (rid & Hid & ->);
    rewrite (errorRequestId_of_config e config w1 Hec Her) in Hid
  end.
  injection Hid as Hid.
  assert (Hundef : rid = VUndefined).
  { rewrite <- Hid. unfold object_at. simpl. rewrite Hc. simpl. rewrite Hrid.
    reflexivity. }
  clear Hid. subst rid.
  eexists. split; [reflexivity|]. split; [reflexivity|].
  apply String.eqb_neq in Hmsg. unfold invalidToken. rewrite Hmsg.
  unfold logged, record, with_requestId, with_trace. simpl.
  rewrite !omap_app. simpl. rewrite !app_nil_r, <- app_assoc. reflexivity.
Qed.

(** C7.  A supplied client keeps its adapter whatever the flags and options
    say, and its interceptors, to which the facade's pair is added; without
    one, the adapter is the default adapter, wrapped by the cache enhancer
    when [enableCache] is set, and that wrapped by the retry enhancer when
    [enableRetry] is set. *)
Theorem C7_adapter_composition (options : option HttpClientOptions) :
  let this := constructor uuid_v4 options in
  (forall inst,
     options ≫= opt_client = Some inst ->
     adapter (client this) = adapter inst /\
     request_interceptors (client this)
       = (request_interceptors inst
          ++ [facade_request_handlers uuid_v4 (logFunction this)])%list /\
     response_interceptors (client this)
       = (response_interceptors inst
          ++ [facade_response_handlers (logFunction this)])%list) /\
  (options ≫= opt_client = None ->
     adapter (client this) =
       match default false (options ≫= opt_enableCache),
             default false (options ≫= opt_enableRetry) with
       | false, false => DefaultAdapter
       | true, false => CacheEnhanced DefaultAdapter (options ≫= opt_cacheOptions)
       | false, true => RetryEnhanced DefaultAdapter (options ≫= opt_retryOptions)
       | true, true =>
           RetryEnhanced
             (CacheEnhanced DefaultAdapter (options ≫= opt_cacheOptions))
             (options ≫= opt_retryOptions)
       end).
Proof.
  simpl. split.
  - intros inst E. unfold constructor. simpl. rewrite E. simpl.
    repeat split.
  - intros E. unfold constructor. simpl. rewrite E. simpl.
    unfold build_adapter, cacheAdapterEnhancer, retryAdapterEnhancer.
    destruct (default false (options ≫= opt_enableCache)),
             (default false (options ≫= opt_enableRetry)); reflexivity.
Qed.

End RequestClaims.

(** C8.  [serializeError] returns [undefined] exactly when the error carries
    no response, and otherwise the record of the response's [status],
    [statusText] and [data]. *)
Theorem C8_serializeError (error : js_error) :
  (err_response error = None -> serializeError error = None) /\
  (forall response,
     err_response error = Some response ->
     serializeError error
     = Some {| ser_status := status response;
               ser_statusText := statusText response;
               ser_data := data response |}) /\
  (serializeError error = None -> err_response error = None).
Proof.
  unfold serializeError. destruct (err_response error) as [r|].
  - split; [discriminate|]. split; [|discriminate].
    intros response [= <-]. reflexivity.
  - split; [reflexivity|]. split; [discriminate | reflexivity].
Qed.

(** ** Verb methods and the caller's config object *)

Section VerbClaims.

Import Axios HttpClient.

Variable transport : nat -> loc -> outcome AxiosResponse.

(** When header resolution fails, by the conflict error or by the resolver's
    rejection, a verb method ends with that error before it has assigned
    anything: the stored objects are those of before the call. *)
Lemma post_fails_with_resolution
    (this : HttpClient.t) (url : string) (body : value)
    (config : loc) (o : jsobject) (e : js_error) (w w1 : world) :
  objectStore w !! config = Some o ->
  createHeadersWithResolvedToken this (obj_headers o) w = (Throw e, w1) ->
  post transport this url body (Some config) w = (Throw e, w1) /\
  objectStore w1 = objectStore w.
Proof.
  intros Hc Hres. split.
  - unfold post, default_param, bind, ret, read_object.
    rewrite (object_at_Some w config o Hc), Hres. reflexivity.
  - pose proof (createHeaders_objectStore this (obj_headers o) w) as F.
    rewrite Hres in F. exact F.
Qed.

(** The six methods that assign to their parameter: the transport client is
    given the caller's own object, in a world in which that object's
    [headers] is the resolved mapping. *)
Lemma assigning_verbs_hand_over
    (this : HttpClient.t) (url : string) (body : value)
    (config : loc) (o : jsobject) (h : loc) (w w1 : world) :
  objectStore w !! config = Some o ->
  createHeadersWithResolvedToken this (obj_headers o) w = (Ok h, w1) ->
  let updated := {| obj_headers := Some h; obj_props := obj_props o |} in
  let w2 := with_objectStore (<[config := updated]> (objectStore w)) w1 in
  post transport this url body (Some config) w
    = Axios.verb transport "post" (client this) url (Some body) config w2 /\
  put transport this url body (Some config) w
    = Axios.verb transport "put" (client this) url (Some body) config w2 /\
  patch transport this url body (Some config) w
    = Axios.verb transport "patch" (client this) url (Some body) config w2 /\
  HttpClient.delete transport this url (Some config) w
    = Axios.verb transport "delete" (client this) url None config w2 /\
  HttpClient.head transport this url (Some config) w
    = Axios.verb transport "head" (client this) url None config w2 /\
  options transport this url (Some config) w
    = Axios.verb transport "options" (client this) url None config w2.
Proof.
  intros Hc Hres updated w2.
  assert (Hstore : objectStore w1 = objectStore w).
  { pose proof (createHeaders_objectStore this (obj_headers o) w) as F.
    rewrite Hres in F. exact F. }
  assert (Hat : object_at w1 config = o).
  { unfold object_at. rewrite Hstore, Hc. reflexivity. }
  unfold post, put, patch, HttpClient.delete, HttpClient.head, options.
  unfold default_param, bind, ret, read_object, assign_headers.
  rewrite (object_at_Some w config o Hc), Hres, Hat, Hstore.
  repeat split.
Qed.

(** [get]: the transport client is given the object that the object literal
    creates. *)
Lemma get_hands_over_new_object
    (this : HttpClient.t) (url : string)
    (config : loc) (o : jsobject) (h : loc) (w w1 : world) :
  objectStore w !! config = Some o ->
  createHeadersWithResolvedToken this (obj_headers o) w = (Ok h, w1) ->
  let arg := fresh (dom (objectStore w)) in
  let fresh_config :=
    {| obj_headers := Some h;
       obj_props := obj_props o ∪ {["responseType" := VString "json"]} |} in
  let w3 := with_objectStore (<[arg := fresh_config]> (objectStore w)) w1 in
  get transport this url (Some config) w
    = Axios.verb transport "get" (client this) url None arg w3.
Proof.
  intros Hc Hres arg fresh_config w3.
  assert (Hstore : objectStore w1 = objectStore w).
  { pose proof (createHeaders_objectStore this (obj_headers o) w) as F.
    rewrite Hres in F. exact F. }
  unfold get, default_param, bind, ret, read_object, new_object.
  rewrite (object_at_Some w config o Hc), Hres, Hstore. reflexivity.
Qed.

Lemma fresh_object_loc_ne (w : world) (c : loc) (o : jsobject) :
  objectStore w !! c = Some o -> fresh (dom (objectStore w)) <> c.
Proof.
  intros Hc E. pose proof (fresh_object_loc w) as F. rewrite E in F. congruence.
Qed.

(** C9.  Let the headers of the caller's config object resolve to [h].  Then
    [post], [put], [patch], [delete], [head] and [options] hand the caller's
    own object to the transport client, after having set its [headers]
    property to [h] in place, every other property and every other object
    being left as it was; [get] hands over a new object, built from the
    caller's properties, [responseType] defaulting to json, and [h], and the
    caller's object is as before. *)
Theorem C9_config_mutated_in_place_except_get
    (this : HttpClient.t) (url : string) (body : value)
    (config : loc) (o : jsobject) (h : loc) (w w1 : world) :
  objectStore w !! config = Some o ->
  createHeadersWithResolvedToken this (obj_headers o) w = (Ok h, w1) ->
  let updated := {| obj_headers := Some h; obj_props := obj_props o |} in
  let w2 := with_objectStore (<[config := updated]> (objectStore w)) w1 in
  (objectStore w2 !! config = Some updated /\
   (forall c', c' <> config -> objectStore w2 !! c' = objectStore w !! c') /\
   post transport this url body (Some config) w
     = Axios.verb transport "post" (client this) url (Some body) config w2 /\
   put transport this url body (Some config) w
     = Axios.verb transport "put" (client this) url (Some body) config w2 /\
   patch transport this url body (Some config) w
     = Axios.verb transport "patch" (client this) url (Some body) config w2 /\
   HttpClient.delete transport this url (Some config) w
     = Axios.verb transport "delete" (client this) url None config w2 /\
   HttpClient.head transport this url (Some config) w
     = Axios.verb transport "head" (client this) url None config w2 /\
   options transport this url (Some config) w
     = Axios.verb transport "options" (client this) url None config w2) /\
  (exists arg : loc,
     let fresh_config :=
       {| obj_headers := Some h;
          obj_props := obj_props o ∪ {["responseType" := VString "json"]} |} in
     let w3 := with_objectStore (<[arg := fresh_config]> (objectStore w)) w1 in
     arg <> config /\
     objectStore w !! arg = None /\
     objectStore w3 !! config = Some o /\
     (forall c', c' <> arg -> objectStore w3 !! c' = objectStore w !! c') /\
     get transport this url (Some config) w
       = Axios.verb transport "get" (client this) url None arg w3).
Proof.
  intros Hc Hres updated w2. split.
  - split. { apply lookup_insert_eq. }
    split. { intros c' Hne. apply lookup_insert_ne. congruence. }
    exact (assigning_verbs_hand_over this url body config o h w w1 Hc Hres).
  - exists (fresh (dom (objectStore w))).
    pose proof (fresh_object_loc_ne w config o Hc) as Hne.
    simpl. split; [exact Hne|]. split; [apply fresh_object_loc|].
    split. { rewrite lookup_insert_ne; [exact Hc | exact Hne]. }
    split. { intros c' Hc'. apply lookup_insert_ne. congruence. }
    exact (get_hands_over_new_object this url config o h w w1 Hc Hres).
Qed.

End VerbClaims.

(** ** The whole call, for a facade over plain transport options *)

Section WholeCall.

Import Axios HttpClient.

Variable uuid_v4 : nat -> string.
Variable transport : nat -> loc -> outcome AxiosResponse.

(** The facade's interceptors and the dispatch write no stored object. *)
Lemma request_keeps_objects (log : log_sink) (inst : AxiosInstance)
    (config : loc) (w : world) :
  request_interceptors inst = [facade_request_handlers uuid_v4 log] ->
  response_interceptors inst = [facade_response_handlers log] ->
  objectStore (snd (Axios.chain transport inst config w)) = objectStore w.
Proof.
  intros Hq Hs.
  rewrite (request_through_facade uuid_v4 transport log inst config w Hq Hs).
  pose proof (requestFulfilled_eq uuid_v4 log config w) as R. simpl in R.
  rewrite R. clear R.
  destruct (truthy (prop (object_at w config) "url")).
  - unfold dispatchRequest.
    match goal with |- context [transport ?n config] =>
      destruct (transport n config) as [r|e] end.
    + reflexivity.
    + match goal with |- context [responseRejected log e ?w1] =>
        destruct (responseRejected_eq log e w1) as (rid & _ & ->) end.
      reflexivity.
  - match goal with |- context [responseRejected log ?e ?w1] =>
      destruct (responseRejected_eq log e w1) as (rid & _ & ->) end.
    reflexivity.
Qed.

(** An instance method allocates the merged request config and writes no
    object that was there before. *)
Lemma verb_keeps_objects (log : log_sink) (inst : AxiosInstance)
    (method url : string) (body : option value) (config c : loc) (o : jsobject)
    (w : world) :
  request_interceptors inst = [facade_request_handlers uuid_v4 log] ->
  response_interceptors inst = [facade_response_handlers log] ->
  objectStore w !! c = Some o ->
  objectStore (snd (Axios.verb transport method inst url body config w)) !! c = Some o.
Proof.
  intros Hq Hs Hc.
  unfold Axios.verb, merge_request, bind, read_object, new_object.
  rewrite (request_keeps_objects log inst _ _ Hq Hs). simpl.
  rewrite lookup_insert_ne; [exact Hc|].
  intros E. pose proof (fresh_object_loc w) as F. rewrite E in F. congruence.
Qed.

(** After the whole call, whatever the transport answered: [post] has left the
    caller's config object with its [headers] replaced by the resolved ones,
    and [get] has left it as it was. *)
Lemma caller_config_after_call
    (options : option HttpClientOptions) (url : string) (body : value)
    (config : loc) (o : jsobject) (h : loc) (w w1 : world) :
  plain_transport options ->
  let this := constructor uuid_v4 options in
  objectStore w !! config = Some o ->
  createHeadersWithResolvedToken this (obj_headers o) w = (Ok h, w1) ->
  objectStore (snd (post transport this url body (Some config) w)) !! config
    = Some {| obj_headers := Some h; obj_props := obj_props o |} /\
  objectStore (snd (get transport this url (Some config) w)) !! config = Some o.
Proof.
  intros Hplain this Hc Hres.
  destruct (constructor_interceptors uuid_v4 options Hplain) as [Hq Hs].
  destruct (assigning_verbs_hand_over transport this url body config o h w w1
              Hc Hres) as (Hp & _).
  pose proof (get_hands_over_new_object transport this url config o h w w1
                Hc Hres) as Hg.
  simpl in Hp, Hg. split.
  - rewrite Hp. apply (verb_keeps_objects _ _ _ _ _ _ _ _ _ Hq Hs).
    apply lookup_insert_eq.
  - rewrite Hg. apply (verb_keeps_objects _ _ _ _ _ _ _ _ _ Hq Hs).
    simpl. rewrite lookup_insert_ne; [exact Hc|].
    exact (fresh_object_loc_ne w config o Hc).
Qed.

End WholeCall.

(** ** The claims at concrete inputs *)

(** C6.  [get('https://api.example/x')] on a facade built with no options,
    the transport rejecting with a network error that carries the request
    config: the call ends with that error's message, the outbound interceptor
    has generated an id and written it to the module-level variable and to
    the request log, and the failure log's [requestId] is [undefined]. *)
Theorem C6_failure_log_lacks_generated_id :
  let r := HttpClient.get Examples.network_down Examples.plain_client
             "https://api.example/x" None initial_world in
  fst r = Throw (new_Error "Network Error") /\
  requestId (snd r) = Examples.uuids 0 /\
  adapter_calls (snd r) = 1 /\
  logged (trace (snd r))
    = [("HTTP Request", VString (Examples.uuids 0));
       ("HTTP Response Error", VUndefined)].
Proof. vm_compute. repeat split. Qed.




Lemma C5_witness :
  exists (thrown : js_error) (ev : log_event) (w' : world),
    HttpClient.responseRejected ConsoleLog (new_Error "Invalid token") initial_world
      = (Throw thrown, w') /\
    message thrown = "Invalid token" /\
    title ev = "HTTP call skipped due to a token error" /\
    w' = record (EvLog ConsoleLog ev []) initial_world.
Proof.
  destruct (C5_failure_title_and_rethrow ConsoleLog (new_Error "Invalid token")
              initial_world)
    as (thrown & ev & w' & Hr & Hm & Hw & _ & _ & Ht & _).
  exists thrown, ev, w'.
  split; [exact Hr|]. split; [exact Hm|]. split; [apply Ht; reflexivity | exact Hw].
Defined.

Lemma C7_witness :
  Axios.adapter
    (HttpClient.client (HttpClient.constructor Examples.uuids
                          (Some Examples.supplied_options)))
  = Axios.CustomAdapter "mine" /\
  Axios.adapter
    (HttpClient.client (HttpClient.constructor Examples.uuids
                          (Some Examples.token_options)))
  = Axios.RetryEnhanced (Axios.CacheEnhanced Axios.DefaultAdapter (Some (VRef 9))) None.
Proof.
  split.
  - apply (proj1 (C7_adapter_composition Examples.uuids
                    (Some Examples.supplied_options)) Examples.own_instance).
    reflexivity.
  - apply (proj2 (C7_adapter_composition Examples.uuids
                    (Some Examples.token_options))).
    reflexivity.
Defined.

Lemma C8_witness :
  serializeError (new_Error "Network Error") = None /\
  serializeError
    {| message := "Request failed with status code 404";
       err_config := VUndefined; err_request := VUndefined;
       err_response := Some Examples.not_found |}
  = Some {| ser_status := 404; ser_statusText := "Not Found";
            ser_data := VString "no such thing" |}.
Proof.
  split.
  - apply (proj1 (C8_serializeError (new_Error "Network Error"))). reflexivity.
  - apply (proj1 (proj2 (C8_serializeError
                           {| message := "Request failed with status code 404";
                              err_config := VUndefined; err_request := VUndefined;
                              err_response := Some Examples.not_found |}))
             Examples.not_found).
    reflexivity.
Defined.

Lemma C9_witness :
  let w := Examples.world_with Examples.accept_only Examples.timeout_prop in
  let updated := {| obj_headers := Some 2%positive; obj_props := Examples.timeout_prop |} in
  let w1 := snd (HttpClient.createHeadersWithResolvedToken Examples.token_client
                   (Some 1%positive) w) in
  let w2 := with_objectStore (<[1%positive := updated]> (objectStore w)) w1 in
  objectStore w2 !! 1%positive = Some updated /\
  HttpClient.post Examples.network_down Examples.token_client
    "https://api.example/x" (VNumber 2) (Some 1%positive) w
  = Axios.verb Examples.network_down "post"
      (HttpClient.client Examples.token_client)
      "https://api.example/x" (Some (VNumber 2)) 1%positive w2.
Proof.
  intros w updated w1 w2.
  pose proof
    (C9_config_mutated_in_place_except_get Examples.network_down
       Examples.token_client "https://api.example/x" (VNumber 2) 1%positive
       {| obj_headers := Some 1%positive; obj_props := Examples.timeout_prop |}
       2%positive w w1) as H.
  destruct H as ((Hu & _ & Hp & _) & _).
  - vm_compute. reflexivity.
  - vm_compute. reflexivity.
  - split; [exact Hu | exact Hp].
Defined.

(** ** Further properties of the facade *)

Lemma count_record (p : event -> bool) (ev : event) (w : world) :
  count p (trace (record ev w)) = count p (trace w) + (if p ev then 1 else 0).
Proof. unfold record. simpl. apply count_snoc. Qed.

Section FacadeRequest.

Import Axios HttpClient.

Variable uuid_v4 : nat -> string.
Variable transport : nat -> loc -> outcome AxiosResponse.

(** The failure handler, with the recovered id spelled out. *)
Lemma responseRejected_event (log : log_sink) (error : js_error) (w : world) :
  responseRejected log error w
  = (Throw (new_Error (message error)), record (EvLog log (failure_event w error) []) w).
Proof.
  destruct (responseRejected_eq log error w) as (rid & Hid & ->).
  unfold failure_event, recovered_id. rewrite Hid. reflexivity.
Qed.

(** A request through an instance that carries the facade's interceptors and
    no other, in full. *)
Lemma facade_request_eq (log : log_sink) (inst : AxiosInstance) (config : loc)
    (w : world) :
  request_interceptors inst = [facade_request_handlers uuid_v4 log] ->
  response_interceptors inst = [facade_response_handlers log] ->
  let id := uuid_v4 (uuid_calls w) in
  let c := object_at w config in
  let w1 := record (EvLog log (request_event id c) [VBool false])
              (with_requestId id (record EvUuid w)) in
  Axios.chain transport inst config w =
    if truthy (prop c "url")
    then
      match transport (adapter_calls w) config with
      | Ok response => (Ok response, record (EvAdapter config) w1)
      | Throw e =>
          (Throw (new_Error (message e)),
           record (EvLog log (failure_event (record (EvAdapter config) w1) e) [])
             (record (EvAdapter config) w1))
      end
    else
      (Throw (new_Error missing_url_message),
       record (EvLog log (failure_event w1 (new_Error missing_url_message)) []) w1).
Proof.
  intros Hq Hs id c w1.
  rewrite (request_through_facade uuid_v4 transport log inst config w Hq Hs).
  pose proof (requestFulfilled_eq uuid_v4 log config w) as R. simpl in R.
  fold id c in R. change (requestFulfilled uuid_v4 log config w =
    if truthy (prop c "url") then (Ok config, w1)
    else (Throw (new_Error missing_url_message), w1)) in R.
  rewrite R. destruct (truthy (prop c "url")).
  - unfold dispatchRequest.
    assert (Hn : adapter_calls w1 = adapter_calls w).
    { subst w1. rewrite adapter_calls_record. simpl.
      change (adapter_calls (with_requestId id (record EvUuid w)))
        with (adapter_calls (record EvUuid w)).
      rewrite adapter_calls_record. simpl. lia. }
    rewrite Hn. destruct (transport (adapter_calls w) config) as [r|e].
    + reflexivity.
    + apply responseRejected_event.
  - apply responseRejected_event.
Qed.

End FacadeRequest.

(** *** Header resolution: the default argument, the frame, the injection *)

Lemma fresh_insert_keeps {V} (m : gmap loc V) (x : V) (l : loc) (v : V) :
  m !! l = Some v -> <[fresh (dom m) := x]> m !! l = Some v.
Proof.
  intros Hl. rewrite lookup_insert_ne; [exact Hl|].
  intros E. assert (F : m !! fresh (dom m) = None) by apply not_elem_of_dom, is_fresh.
  rewrite E in F. congruence.
Qed.

Lemma fresh_insert_None {V} (m : gmap loc V) (x : V) :
  m !! fresh (dom (<[fresh (dom m) := x]> m)) = None.
Proof.
  destruct (m !! fresh (dom (<[fresh (dom m) := x]> m))) as [v|] eqn:E;
    [|reflexivity].
  exfalso. apply (is_fresh (dom (<[fresh (dom m) := x]> m))).
  apply elem_of_dom. exists v. apply fresh_insert_keeps, E.
Qed.

Lemma bearer_nonempty (token : string) : "Bearer " +:+ token <> "".
Proof. discriminate. Qed.

Section HeaderResolutionMore.

Import HttpClient.

(** X1.  Called without headers, [createHeadersWithResolvedToken] never
    throws the conflict error.  Without a resolver it returns a new, empty
    mapping and does nothing else; with a resolver it invokes it once and,
    on a token, returns a new mapping that holds the [Authorization] entry
    and nothing more; a rejection of the resolver is what the call ends
    with. *)
Theorem X1_undefined_headers (this : HttpClient.t) (w : world) :
  let r := createHeadersWithResolvedToken this None w in
  match tokenResolverFunction this with
  | None =>
      exists l : loc,
        headerStore w !! l = None /\
        r = (Ok l, with_headerStore (<[l := ∅]> (headerStore w)) w)
  | Some resolver =>
      resolver_calls (snd r) = S (resolver_calls w) /\
      match resolver (resolver_calls w) with
      | Ok token =>
          exists l : loc,
            fst r = Ok l /\
            headerStore w !! l = None /\
            headerStore (snd r) !! l
              = Some {[ "Authorization" := "Bearer " +:+ token ]}
      | Throw e => fst r = Throw e
      end
  end.
Proof.
  unfold createHeadersWithResolvedToken, default_param, bind, new_headers, ret.
  destruct (tokenResolverFunction this) as [resolver|]; simpl.
  - unfold read_headers, headers_at. simpl. rewrite lookup_insert_eq. simpl.
    unfold header_value. rewrite lookup_empty. simpl.
    unfold await_resolver.
    change (resolver_calls (with_headerStore (<[fresh (dom (headerStore w)) := ∅]>
                                               (headerStore w)) w))
      with (resolver_calls w).
    destruct (resolver (resolver_calls w)) as [token|e]; simpl.
    + split; [unfold resolver_calls; simpl; rewrite count_snoc; simpl; lia|].
      rewrite lookup_insert_eq. simpl.
      eexists. split; [reflexivity|].
      split; [apply fresh_insert_None|].
      rewrite lookup_insert_eq, insert_empty. reflexivity.
    + split; [|reflexivity].
      unfold resolver_calls. simpl. rewrite count_snoc. simpl. lia.
  - eexists. split; [apply fresh_header_loc | reflexivity].
Qed.

(** What one header resolution leaves behind, whatever its arguments. *)
Lemma createHeaders_shape (this : HttpClient.t) (headers : option loc) (w : world) :
  let r := createHeadersWithResolvedToken this headers w in
  exists evs : list event,
    (evs = [] \/ evs = [EvTokenResolver]) /\
    (tokenResolverFunction this = None -> evs = []) /\
    trace (snd r) = (trace w ++ evs)%list /\
    objectStore (snd r) = objectStore w /\
    requestId (snd r) = requestId w /\
    (forall l h, headerStore w !! l = Some h -> headerStore (snd r) !! l = Some h) /\
    (forall e, fst r = Throw e ->
       exists resolver,
         tokenResolverFunction this = Some resolver /\
         (e = new_Error conflict_message \/ resolver (resolver_calls w) = Throw e)).
Proof.
  unfold createHeadersWithResolvedToken, default_param, bind, new_headers, ret,
    read_headers, await_resolver, throw.
  destruct headers as [l0|]; destruct (tokenResolverFunction this) as [resolver|];
    simpl.
  - destruct (truthy _); simpl.
    + exists []. rewrite app_nil_r.
      repeat split; auto; try discriminate. intros e [= <-]. exists resolver. split; [reflexivity|]. left. reflexivity.
    + destruct (resolver (resolver_calls w)) as [token|e] eqn:R; simpl.
      * exists [EvTokenResolver].
        repeat split; auto; try discriminate.
        intros l h Hl. apply fresh_insert_keeps, Hl.
      * exists [EvTokenResolver].
        repeat split; auto; try discriminate.
        intros e' [= <-]. exists resolver. split; [reflexivity|]. right. exact R.
  - exists []. rewrite app_nil_r. repeat split; auto; discriminate.
  - unfold headers_at. simpl. rewrite lookup_insert_eq. simpl.
    unfold header_value. rewrite lookup_empty. simpl.
    change (resolver_calls (with_headerStore (<[fresh (dom (headerStore w)) := ∅]>
                                               (headerStore w)) w))
      with (resolver_calls w).
    destruct (resolver (resolver_calls w)) as [token|e] eqn:R; simpl.
    + exists [EvTokenResolver].
      repeat split; auto; try discriminate.
      intros l h Hl. apply fresh_insert_keeps, fresh_insert_keeps, Hl.
    + exists [EvTokenResolver].
      repeat split; auto; try discriminate.
      * intros l h Hl. apply fresh_insert_keeps, Hl.
      * intros e' [= <-]. exists resolver. split; [reflexivity|]. right. exact R.
  - exists []. rewrite app_nil_r. repeat split; auto; try discriminate.
    intros l h Hl. apply fresh_insert_keeps, Hl.
Qed.

(** X2.  Header resolution has no effect but the resolver's invocation and
    the objects it creates: every mapping that existed keeps its content (the
    input is never written to), config objects and the module-level
    [requestId] are as before, nothing is logged, no id is generated, the
    adapter is not called, and the resolver is invoked at most once, and not
    at all by a facade without one. *)
Theorem X2_header_resolution_frame
    (this : HttpClient.t) (headers : option loc) (w : world) :
  let w' := snd (createHeadersWithResolvedToken this headers w) in
  (forall l h, headerStore w !! l = Some h -> headerStore w' !! l = Some h) /\
  objectStore w' = objectStore w /\
  requestId w' = requestId w /\
  logged (trace w') = logged (trace w) /\
  uuid_calls w' = uuid_calls w /\
  adapter_calls w' = adapter_calls w /\
  resolver_calls w <= resolver_calls w' <= S (resolver_calls w) /\
  (tokenResolverFunction this = None -> trace w' = trace w).
Proof.
  destruct (createHeaders_shape this headers w)
    as (evs & Hevs & Hnone & Ht & Ho & Hr & Hh & _).
  simpl. split; [exact Hh|]. split; [exact Ho|]. split; [exact Hr|].
  unfold uuid_calls, adapter_calls, resolver_calls, count, logged.
  rewrite Ht, omap_app, !List.filter_app, !length_app.
  assert (Hlast : tokenResolverFunction this = None ->
                  (trace w ++ evs)%list = trace w).
  { intros Hn. rewrite (Hnone Hn). apply app_nil_r. }
  destruct Hevs as [-> | ->]; simpl; rewrite ?app_nil_r in *;
    (split; [reflexivity|]); (split; [lia|]); (split; [lia|]);
    (split; [lia | exact Hlast]).
Qed.

End HeaderResolutionMore.

Lemma X2_witness :
  let w := Examples.world_with Examples.accept_only Examples.timeout_prop in
  let w' := snd (HttpClient.createHeadersWithResolvedToken Examples.token_client
                   (Some 1%positive) w) in
  headerStore w' !! 1%positive = Some Examples.accept_only /\
  objectStore w' = objectStore w /\
  adapter_calls w' = adapter_calls w.
Proof.
  intros w w'.
  destruct (X2_header_resolution_frame Examples.token_client (Some 1%positive) w)
    as (Hh & Ho & _ & _ & _ & Ha & _).
  split; [|split; [exact Ho | exact Ha]].
  apply Hh. vm_compute. reflexivity.
Defined.

(** *** Instance methods of the facade's client *)

Lemma merged_config_url (method url : string) (body : option value) (c : jsobject) :
  prop (merged_config method url body c) "url" = VString url.
Proof.
  unfold prop, merged_config. simpl. destruct body; simpl.
  - rewrite lookup_insert_ne by discriminate. rewrite lookup_insert_eq. reflexivity.
  - rewrite lookup_insert_eq. reflexivity.
Qed.

Section FacadeVerb.

Import Axios HttpClient.

Variable uuid_v4 : nat -> string.
Variable transport : nat -> loc -> outcome AxiosResponse.

(** An instance method of a client that carries the facade's interceptors
    and no other, in full: the merged request config is a new object, and the
    request runs on it. *)
Lemma facade_verb_eq (log : log_sink) (inst : AxiosInstance)
    (method url : string) (body : option value) (config : loc) (w : world) :
  request_interceptors inst = [facade_request_handlers uuid_v4 log] ->
  response_interceptors inst = [facade_response_handlers log] ->
  let a := fresh (dom (objectStore w)) in
  let merged := merged_config method url body (object_at w config) in
  let wm := with_objectStore (<[a := merged]> (objectStore w)) w in
  let id := uuid_v4 (uuid_calls w) in
  let w1 := record (EvLog log (request_event id merged) [VBool false])
              (with_requestId id (record EvUuid wm)) in
  Axios.verb transport method inst url body config w =
    if String.eqb url ""
    then
      (Throw (new_Error missing_url_message),
       record (EvLog log (failure_event w1 (new_Error missing_url_message)) []) w1)
    else
      match transport (adapter_calls w) a with
      | Ok response => (Ok response, record (EvAdapter a) w1)
      | Throw e =>
          (Throw (new_Error (message e)),
           record (EvLog log (failure_event (record (EvAdapter a) w1) e) [])
             (record (EvAdapter a) w1))
      end.
Proof.
  intros Hq Hs a merged wm id w1.
  change (Axios.verb transport method inst url body config w)
    with (Axios.chain transport inst a wm).
  pose proof (facade_request_eq uuid_v4 transport log inst a wm Hq Hs) as R.
  simpl in R.
  assert (Hat : object_at wm a = merged).
  { unfold object_at, wm. simpl. rewrite lookup_insert_eq. reflexivity. }
  rewrite Hat in R. subst merged. rewrite merged_config_url in R. simpl in R.
  rewrite R. destruct (String.eqb url ""); reflexivity.
Qed.

(** What an instance method of the facade's client leaves behind. *)
Lemma facade_verb_summary (log : log_sink) (inst : AxiosInstance)
    (method url : string) (body : option value) (config : loc) (w : world) :
  request_interceptors inst = [facade_request_handlers uuid_v4 log] ->
  response_interceptors inst = [facade_response_handlers log] ->
  let r := Axios.verb transport method inst url body config w in
  requestId (snd r) = uuid_v4 (uuid_calls w) /\
  uuid_calls (snd r) = S (uuid_calls w) /\
  resolver_calls (snd r) = resolver_calls w /\
  adapter_calls (snd r) = adapter_calls w + (if String.eqb url "" then 0 else 1) /\
  headerStore (snd r) = headerStore w /\
  (forall e, fst r = Throw e -> e = new_Error (message e)) /\
  (url = "" -> fst r = Throw (new_Error missing_url_message)).
Proof.
  intros Hq Hs r. subst r.
  rewrite (facade_verb_eq log inst method url body config w Hq Hs).
  unfold uuid_calls, resolver_calls, adapter_calls.
  destruct (String.eqb url "") eqn:U.
  - simpl. rewrite !count_snoc. simpl.
    repeat split; try lia. intros e [= <-]. reflexivity.
  - destruct (transport _ _) as [response|e0]; simpl; rewrite !count_snoc; simpl.
    + repeat split; try lia; try discriminate.
      intros ->. discriminate U.
    + repeat split; try lia.
      * intros e [= <-]. reflexivity.
      * intros ->. discriminate U.
Qed.

End FacadeVerb.

(** *** The verb methods as a whole *)

Section VerbsAsAWhole.

Import Axios HttpClient.

Variable uuid_v4 : nat -> string.
Variable transport : nat -> loc -> outcome AxiosResponse.

(** Every verb method either ends with the error of its header resolution,
    or goes on to the instance method of its client; up to that point the
    resolver's invocation is the only effect recorded. *)
Lemma verb_decomposition
    (this : HttpClient.t) (url : string) (body : value) (config : option loc) :
  every_verb transport this url body config (fun call =>
    forall w, exists evs : list event,
      (evs = [] \/ evs = [EvTokenResolver]) /\
      (tokenResolverFunction this = None -> evs = []) /\
      ((exists e w1,
          call w = (Throw e, w1) /\
          trace w1 = (trace w ++ evs)%list /\
          (exists resolver,
             tokenResolverFunction this = Some resolver /\
             (e = new_Error conflict_message \/
              resolver (resolver_calls w) = Throw e))) \/
       (exists method b c w2,
          call w = Axios.verb transport method (client this) url b c w2 /\
          trace w2 = (trace w ++ evs)%list))).
Proof.
  unfold every_verb, every_assigning_verb.
  refine (conj _ (conj _ (conj _ (conj _ (conj _ (conj _ _)))))).
  all: intros w.
  all: unfold get, post, put, patch, HttpClient.delete, HttpClient.head, options,
         default_param, bind, ret, read_object, new_object, assign_headers.
  all: destruct config as [c|]; cbn beta iota.
  all: match goal with
       | |- context [createHeadersWithResolvedToken ?t ?hs ?w0] =>
           destruct (createHeaders_shape t hs w0)
             as (evs & Hevs & Hnone & Ht & _ & _ & _ & He);
           destruct (createHeadersWithResolvedToken t hs w0) as [[h|e] w1];
           simpl in Ht, He
       end.
  all: exists evs; split; [exact Hevs|]; split; [exact Hnone|].
  all: try (left; exists e, w1; split; [reflexivity|]; split; [exact Ht|];
            exact (He e eq_refl)).
  all: right; eexists _, _, _, _; split; [reflexivity | exact Ht].
Qed.

(** X3.  When the token resolver rejects, every verb method ends with the
    resolver's own error, having invoked the resolver once and nothing else:
    the caller's config object is not assigned to, nothing is logged and the
    adapter is not called. *)
Theorem X3_resolver_rejection_reaches_caller
    (this : HttpClient.t) (resolver : token_resolver) (e : js_error)
    (url : string) (body : value) (c : loc) (o : jsobject) (w : world) :
  tokenResolverFunction this = Some resolver ->
  resolver (resolver_calls w) = Throw e ->
  objectStore w !! c = Some o ->
  (forall l, obj_headers o = Some l ->
             truthy (header_value (headers_at w l) "Authorization") = false) ->
  every_verb transport this url body (Some c) (fun call =>
    exists w',
      call w = (Throw e, w') /\
      trace w' = (trace w ++ [EvTokenResolver])%list /\
      objectStore w' = objectStore w /\
      (forall l h, headerStore w !! l = Some h -> headerStore w' !! l = Some h)).
Proof.
  intros Hres Hrej Hc Hauth.
  assert (E : exists w',
             createHeadersWithResolvedToken this (obj_headers o) w = (Throw e, w') /\
             trace w' = (trace w ++ [EvTokenResolver])%list /\
             objectStore w' = objectStore w /\
             (forall l h, headerStore w !! l = Some h ->
                          headerStore w' !! l = Some h)).
  { destruct (obj_headers o) as [l|] eqn:Ho.
    - rewrite (createHeaders_with_resolver this resolver l w Hres).
      rewrite (Hauth l eq_refl), Hrej.
      eexists. split; [reflexivity|]. repeat split. intros l0 h Hl. exact Hl.
    - unfold createHeadersWithResolvedToken, default_param, bind, new_headers,
        read_headers, await_resolver. rewrite Hres. simpl.
      unfold headers_at. simpl. rewrite lookup_insert_eq. simpl.
      unfold header_value. rewrite lookup_empty. simpl.
      change (resolver_calls (with_headerStore
                (<[fresh (dom (headerStore w)) := ∅]> (headerStore w)) w))
        with (resolver_calls w).
      rewrite Hrej. eexists. split; [reflexivity|]. simpl. repeat split.
      intros l0 h Hl. apply fresh_insert_keeps, Hl. }
  destruct E as (w' & E & Ht & Ho & Hh).
  unfold every_verb, every_assigning_verb.
  unfold get, post, put, patch, HttpClient.delete, HttpClient.head, options,
    default_param, bind, ret, read_object.
  rewrite (object_at_Some w c o Hc), E.
  repeat split; exists w'; (split; [reflexivity|]); (split; [exact Ht|]);
    (split; [exact Ho | exact Hh]).
Qed.

Lemma every_verb_impl
    (this : HttpClient.t) (url : string) (body : value) (config : option loc)
    (P Q : M AxiosResponse -> Prop) :
  (forall call, P call -> Q call) ->
  every_verb transport this url body config P ->
  every_verb transport this url body config Q.
Proof.
  intros H. unfold every_verb, every_assigning_verb.
  intros (H1 & H2 & H3 & H4 & H5 & H6 & H7).
  repeat split; apply H; assumption.
Qed.

Lemma counts_after_resolution (w w2 : world) (evs : list event) :
  trace w2 = (trace w ++ evs)%list ->
  evs = [] \/ evs = [EvTokenResolver] ->
  uuid_calls w2 = uuid_calls w /\
  adapter_calls w2 = adapter_calls w /\
  resolver_calls w <= resolver_calls w2 <= S (resolver_calls w) /\
  (evs = [] -> resolver_calls w2 = resolver_calls w).
Proof.
  intros Ht Hevs. unfold uuid_calls, adapter_calls, resolver_calls, count.
  rewrite Ht, !List.filter_app, !length_app.
  destruct Hevs as [-> | ->]; simpl; repeat split; try lia. discriminate.
Qed.

(** X12.  On a facade whose client carries the facade's own pair of
    interceptors and no other, one call of a verb method invokes the token
    resolver at most once (never, for a facade without one), generates at
    most one request id and dispatches to the adapter at most once. *)
Theorem X12_at_most_one_of_each_per_call
    (this : HttpClient.t) (url : string) (body : value) (config : option loc) :
  own_interceptors_only uuid_v4 this ->
  every_verb transport this url body config (fun call =>
    forall w,
      resolver_calls w <= resolver_calls (snd (call w)) <= S (resolver_calls w) /\
      uuid_calls w <= uuid_calls (snd (call w)) <= S (uuid_calls w) /\
      adapter_calls w <= adapter_calls (snd (call w)) <= S (adapter_calls w) /\
      (tokenResolverFunction this = None ->
       resolver_calls (snd (call w)) = resolver_calls w)).
Proof.
  intros [Hq Hs].
  refine (every_verb_impl this url body config _ _ _
            (verb_decomposition this url body config)).
  intros call Hd w.
  destruct (Hd w) as (evs & Hevs & Hnone & [(e & w1 & -> & Ht & _)
                                           | (m & b & c & w2 & -> & Ht)]).
  - simpl. destruct (counts_after_resolution w w1 evs Ht Hevs)
      as (Hu & Ha & Hr & Hr0).
    repeat split; try lia. intros Hn. apply Hr0, Hnone, Hn.
  - destruct (counts_after_resolution w w2 evs Ht Hevs) as (Hu & Ha & Hr & Hr0).
    destruct (facade_verb_summary uuid_v4 transport _ _ m url b c w2 Hq Hs)
      as (_ & Hu' & Hr' & Ha' & _).
    rewrite Hu', Hr', Ha'.
    destruct (String.eqb url ""); repeat split; try lia;
      intros Hn; rewrite (Hr0 (Hnone Hn)); reflexivity.
Qed.

(** X7.  On a facade whose client carries the facade's own pair of
    interceptors and no other, a verb method called with the empty string for
    a URL always ends with an error and never calls the adapter; for a facade
    without a token resolver that error is the MissingURL error. *)
Theorem X7_empty_url_never_sent
    (this : HttpClient.t) (body : value) (config : option loc) :
  own_interceptors_only uuid_v4 this ->
  every_verb transport this "" body config (fun call =>
    forall w, exists e,
      fst (call w) = Throw e /\
      adapter_calls (snd (call w)) = adapter_calls w /\
      (tokenResolverFunction this = None -> e = new_Error missing_url_message)).
Proof.
  intros [Hq Hs].
  refine (every_verb_impl this "" body config _ _ _
            (verb_decomposition this "" body config)).
  intros call Hd w.
  destruct (Hd w) as (evs & Hevs & Hnone & [(e & w1 & -> & Ht & resolver & Hsome & _)
                                           | (m & b & c & w2 & -> & Ht)]).
  - exists e. simpl. split; [reflexivity|].
    destruct (counts_after_resolution w w1 evs Ht Hevs) as (_ & Ha & _).
    split; [exact Ha|]. intros Hn. congruence.
  - destruct (counts_after_resolution w w2 evs Ht Hevs) as (_ & Ha & _).
    destruct (facade_verb_summary uuid_v4 transport _ _ m "" b c w2 Hq Hs)
      as (_ & _ & _ & Ha' & _ & _ & Hmissing).
    exists (new_Error missing_url_message).
    split; [apply Hmissing; reflexivity|].
    split; [|reflexivity]. rewrite Ha'. simpl. lia.
Qed.

(** X6.  On a facade whose client carries the facade's own pair of
    interceptors and no other, an error that a verb method ends with is
    either the token resolver's own rejection or an [Error] that carries a
    message and nothing else: the response, config and request of the
    dispatch's error are not on it, and [serializeError] gives [undefined]
    for it. *)
Theorem X6_thrown_errors_carry_message_only
    (this : HttpClient.t) (url : string) (body : value) (config : option loc) :
  own_interceptors_only uuid_v4 this ->
  every_verb transport this url body config (fun call =>
    forall w e w',
      call w = (Throw e, w') ->
      (e = new_Error (message e) /\ serializeError e = None) \/
      (exists resolver,
         tokenResolverFunction this = Some resolver /\
         resolver (resolver_calls w) = Throw e)).
Proof.
  intros [Hq Hs].
  refine (every_verb_impl this url body config _ _ _
            (verb_decomposition this url body config)).
  intros call Hd w e w' Hcall.
  destruct (Hd w) as (evs & _ & _ & [(e0 & w1 & E & _ & resolver & Hsome & He)
                                     | (m & b & c & w2 & E & _)]).
  - rewrite E in Hcall. injection Hcall as -> _.
    destruct He as [-> | Hrej].
    + left. split; reflexivity.
    + right. exists resolver. split; assumption.
  - left.
    destruct (facade_verb_summary uuid_v4 transport _ _ m url b c w2 Hq Hs)
      as (_ & _ & _ & _ & _ & Hmsg & _).
    rewrite <- E in Hmsg. rewrite Hcall in Hmsg. specialize (Hmsg e eq_refl).
    split; [exact Hmsg|]. rewrite Hmsg. reflexivity.
Qed.

(** X13.  On a facade whose client carries the facade's own pair of
    interceptors and no other, every call of an instance method of the
    client (what a verb method does once the headers are resolved) generates
    exactly one id and overwrites the module-level [requestId] with it,
    whatever becomes of the request (missing URL, rejection or response). *)
Theorem X13_request_overwrites_requestId
    (this : HttpClient.t) (method url : string) (body : option value)
    (config : loc) (w : world) :
  own_interceptors_only uuid_v4 this ->
  let r := Axios.verb transport method (client this) url body config w in
  requestId (snd r) = uuid_v4 (uuid_calls w) /\
  uuid_calls (snd r) = S (uuid_calls w).
Proof.
  intros [Hq Hs] r. subst r.
  destruct (facade_verb_summary uuid_v4 transport _ _ method url body config w Hq Hs)
    as (Hid & Hu & _).
  split; assumption.
Qed.

End VerbsAsAWhole.

(** *** One request through the interceptors *)

Lemma merged_config_method (method url : string) (body : option value) (c : jsobject) :
  prop (merged_config method url body c) "method" = VString method.
Proof.
  unfold prop, merged_config. simpl. destruct body; simpl.
  - rewrite lookup_insert_ne by discriminate.
    rewrite lookup_insert_ne by discriminate.
    rewrite lookup_insert_eq. reflexivity.
  - rewrite lookup_insert_ne by discriminate.
    rewrite lookup_insert_eq. reflexivity.
Qed.

Section RequestLifecycle.

Import Axios HttpClient.

Variable uuid_v4 : nat -> string.
Variable transport : nat -> loc -> outcome AxiosResponse.

(** X4.  On a facade whose client carries the facade's own pair of
    interceptors and no other, an instance method called with a non-empty URL
    whose dispatch settles with a response returns that response as the
    dispatch settled it: the facade's interceptors add nothing to it.  What
    happened is, in this order, one call of [uuid.v4], one "HTTP Request" log
    at INFO to the facade's log function (with the new id, the method and URL
    of the call, and [false] as second argument), and one dispatch.  Nothing
    is logged about the response, and no object or mapping that existed is
    written. *)
Theorem X4_answered_request
    (this : HttpClient.t) (method url : string) (body : option value)
    (config : loc) (response : AxiosResponse) (w : world) :
  own_interceptors_only uuid_v4 this ->
  url <> "" ->
  transport (adapter_calls w) (fresh (dom (objectStore w))) = Ok response ->
  exists w',
    Axios.verb transport method (client this) url body config w = (Ok response, w') /\
    trace w' = (trace w ++ [EvUuid;
                            EvLog (logFunction this)
                              {| title := "HTTP Request"; level := "INFO";
                                 log_requestId := VString (uuid_v4 (uuid_calls w));
                                 detail := RequestInfo (VString method) (VString url) |}
                              [VBool false];
                            EvAdapter (fresh (dom (objectStore w)))])%list /\
    (forall c o, objectStore w !! c = Some o -> objectStore w' !! c = Some o) /\
    headerStore w' = headerStore w.
Proof.
  intros [Hq Hs] Hurl Ht.
  rewrite (facade_verb_eq uuid_v4 transport _ _ method url body config w Hq Hs).
  apply String.eqb_neq in Hurl. rewrite Hurl, Ht.
  eexists. split; [reflexivity|]. simpl.
  unfold request_event. rewrite merged_config_method, merged_config_url.
  rewrite <- !app_assoc. split; [reflexivity|]. split; [|reflexivity].
  intros c o Hc. apply fresh_insert_keeps, Hc.
Qed.

(** X5.  On a facade whose client carries the facade's own pair of
    interceptors and no other, an instance method called with a non-empty URL
    whose dispatch rejects with an error gives the caller a new error with
    that error's message; after the request log and the dispatch, one more
    event is logged at INFO, whose title depends on the message and which
    carries the dispatch's error.  For an error that holds a config object
    and no lower-level request, the logged id is that object's own
    [requestId] when that is truthy and [undefined] otherwise. *)
Theorem X5_rejected_request
    (this : HttpClient.t) (method url : string) (body : option value)
    (config : loc) (e : js_error) (w : world) :
  own_interceptors_only uuid_v4 this ->
  url <> "" ->
  transport (adapter_calls w) (fresh (dom (objectStore w))) = Throw e ->
  exists (w' : world) (rid : value),
    Axios.verb transport method (client this) url body config w
      = (Throw (new_Error (message e)), w') /\
    trace w' = (trace w ++ [EvUuid;
                            EvLog (logFunction this)
                              {| title := "HTTP Request"; level := "INFO";
                                 log_requestId := VString (uuid_v4 (uuid_calls w));
                                 detail := RequestInfo (VString method) (VString url) |}
                              [VBool false];
                            EvAdapter (fresh (dom (objectStore w)));
                            EvLog (logFunction this)
                              {| title := if String.eqb (message e) "Invalid token"
                                          then "HTTP call skipped due to a token error"
                                          else "HTTP Response Error";
                                 level := "INFO"; log_requestId := rid;
                                 detail := ExceptionInfo e |} []])%list /\
    (forall c, err_config e = VRef c -> err_request e = VUndefined ->
       rid = if truthy (prop (object_at w' c) "requestId")
             then prop (object_at w' c) "requestId" else VUndefined) /\
    (forall c o, objectStore w !! c = Some o -> objectStore w' !! c = Some o) /\
    headerStore w' = headerStore w.
Proof.
  intros [Hq Hs] Hurl Ht.
  rewrite (facade_verb_eq uuid_v4 transport _ _ method url body config w Hq Hs).
  apply String.eqb_neq in Hurl. rewrite Hurl, Ht.
  eexists _, _. split; [reflexivity|]. simpl.
  unfold request_event. rewrite merged_config_method, merged_config_url.
  rewrite <- !app_assoc. split; [reflexivity|]. split; [|split; [|reflexivity]].
  - intros c Hec Her. unfold recovered_id.
    rewrite (errorRequestId_of_config e c _ Hec Her). reflexivity.
  - intros c o Hc. apply fresh_insert_keeps, Hc.
Qed.

Lemma get_prop_not_nullish (v : value) (name : string) (w : world) :
  nullish v = false -> pure_at (get_prop v name) w.
Proof.
  unfold pure_at, get_prop.
  destruct v; simpl; intros T; try discriminate; eexists; reflexivity.
Qed.

Lemma opt_chain_pure (v : value) (name : string) (w : world) :
  pure_at (opt_chain v name) w.
Proof.
  unfold opt_chain. destruct (nullish v) eqn:N.
  - eexists. reflexivity.
  - apply get_prop_not_nullish, N.
Qed.

(** X8.  The failure handler of the outbound interceptor always logs one
    "HTTP Request Error" event at WARN that carries what it was given.  Given
    an error object, whatever its config and request hold, it then throws a
    new error with the same message; the logged id is the [requestId] of the
    error's config whenever that is neither [undefined] nor [null] (an empty
    string or 0 is kept), and [undefined] when the error has neither config
    nor request.  Given [undefined] or [null], it logs the event with
    [requestId] undefined and then fails with a TypeError at [error.message],
    which has no guard. *)
Theorem X8_request_error_handler (log : log_sink) (error : reason) (w : world) :
  match error with
  | ReasonError e =>
      exists rid : value,
        requestRejected log error w
          = (Throw (new_Error (message e)),
             record (EvLog log
                       {| title := "HTTP Request Error"; level := "WARN";
                          log_requestId := rid; detail := ExceptionInfo e |} []) w) /\
        (forall c, err_config e = VRef c ->
                   nullish (prop (object_at w c) "requestId") = false ->
                   rid = prop (object_at w c) "requestId") /\
        (nullish (err_config e) = true -> nullish (err_request e) = true ->
         rid = VUndefined)
  | ReasonUndefined =>
      requestRejected log error w
        = (Throw (new_Error "Cannot read property 'message' of undefined"),
           record (EvLog log
                     {| title := "HTTP Request Error"; level := "WARN";
                        log_requestId := VUndefined;
                        detail := ExceptionValue VUndefined |} []) w)
  | ReasonNull =>
      requestRejected log error w
        = (Throw (new_Error "Cannot read property 'message' of null"),
           record (EvLog log
                     {| title := "HTTP Request Error"; level := "WARN";
                        log_requestId := VUndefined;
                        detail := ExceptionValue VNull |} []) w)
  end.
Proof.
  destruct error as [| |e]; [reflexivity | reflexivity |].
  unfold requestRejected, js_coalesce, bind, ret, reason_config, reason_request,
    reason_message, reason_detail.
  destruct (opt_chain_pure (err_config e) "requestId" w) as [x Hx].
  rewrite Hx.
  destruct (opt_chain_pure (err_request e) "config" w) as [y Hy].
  destruct (opt_chain_pure y "requestId" w) as [z Hz].
  destruct (nullish x) eqn:Nx.
  - rewrite Hy, Hz. exists z. split; [reflexivity|]. split.
    + intros c Hc Hn. unfold opt_chain in Hx. rewrite Hc in Hx. simpl in Hx.
      unfold bind, read_object, ret in Hx. injection Hx as <-. congruence.
    + intros Hnc Hnr. unfold opt_chain in Hy. rewrite Hnr in Hy.
      injection Hy as <-. unfold opt_chain in Hz. simpl in Hz.
      injection Hz as <-. reflexivity.
  - exists x. split; [reflexivity|]. split.
    + intros c Hc Hn. unfold opt_chain in Hx. rewrite Hc in Hx. simpl in Hx.
      unfold bind, read_object, ret in Hx. injection Hx as <-. reflexivity.
    + intros Hnc Hnr. unfold opt_chain in Hx. rewrite Hnc in Hx.
      injection Hx as <-. discriminate Nx.
Qed.

End RequestLifecycle.

(** *** What the verb methods hand to the client *)

Section HandedOver.

Import Axios HttpClient.

Variable uuid_v4 : nat -> string.
Variable transport : nat -> loc -> outcome AxiosResponse.

(** X10.  The config that [get] hands to the client has the caller's own
    [responseType] when the caller's config has that property (whatever its
    value, [undefined] included) and json otherwise; every other property is
    the caller's, and [headers] is the resolved mapping. *)
Theorem X10_get_response_type
    (this : HttpClient.t) (url : string) (config : loc) (o : jsobject) (h : loc)
    (w w1 : world) :
  objectStore w !! config = Some o ->
  createHeadersWithResolvedToken this (obj_headers o) w = (Ok h, w1) ->
  exists (arg : loc) (w3 : world) (sent : jsobject),
    get transport this url (Some config) w
      = Axios.verb transport "get" (client this) url None arg w3 /\
    objectStore w3 !! arg = Some sent /\
    obj_headers sent = Some h /\
    obj_props sent !! "responseType"
      = Some (default (VString "json") (obj_props o !! "responseType")) /\
    (forall k, k <> "responseType" -> obj_props sent !! k = obj_props o !! k).
Proof.
  intros Hc Hres.
  eexists _, _, _.
  split; [exact (get_hands_over_new_object transport this url config o h w w1 Hc Hres)|].
  simpl. split; [apply lookup_insert_eq|]. split; [reflexivity|]. simpl. split.
  - rewrite lookup_union.
    destruct (obj_props o !! "responseType") as [v|]; reflexivity.
  - intros k Hk. rewrite lookup_union, lookup_singleton_ne by congruence.
    destruct (obj_props o !! k); reflexivity.
Qed.

(** Header resolution when a resolver is configured and yields a token, and
    the input (if any) passes the conflict check. *)
Lemma createHeaders_injects
    (this : HttpClient.t) (resolver : token_resolver) (token : string)
    (headers : option loc) (w : world) :
  tokenResolverFunction this = Some resolver ->
  resolver (resolver_calls w) = Ok token ->
  (forall l, headers = Some l ->
             truthy (header_value (headers_at w l) "Authorization") = false) ->
  exists (h : loc) (w1 : world) (base : headers_obj),
    createHeadersWithResolvedToken this headers w = (Ok h, w1) /\
    headerStore w1 !! h = Some (<["Authorization" := "Bearer " +:+ token]> base) /\
    (headers = None -> base = ∅) /\
    objectStore w1 = objectStore w /\
    resolver_calls w1 = S (resolver_calls w).
Proof.
  intros Hres Htok Hauth. destruct headers as [l|].
  - rewrite (createHeaders_with_resolver this resolver l w Hres).
    rewrite (Hauth l eq_refl), Htok. unfold new_headers.
    eexists _, _, _. split; [reflexivity|]. simpl.
    split; [apply lookup_insert_eq|]. split; [discriminate|].
    split; [reflexivity|]. apply resolver_calls_record_resolver.
  - unfold createHeadersWithResolvedToken, default_param, bind, new_headers,
      read_headers, await_resolver. rewrite Hres. simpl.
    unfold headers_at. simpl. rewrite lookup_insert_eq. simpl.
    unfold header_value. rewrite lookup_empty. simpl.
    change (resolver_calls (with_headerStore
              (<[fresh (dom (headerStore w)) := ∅]> (headerStore w)) w))
      with (resolver_calls w).
    rewrite Htok. simpl. rewrite lookup_insert_eq. simpl.
    eexists _, _, _. split; [reflexivity|]. simpl.
    split; [apply lookup_insert_eq|]. split; [reflexivity|].
    split; [reflexivity|].
    unfold resolver_calls. simpl. rewrite count_snoc. simpl. lia.
Qed.

(** X11.  Called without a config, on a facade whose resolver yields a token,
    a verb method hands the client a config object that it has just created
    and whose [headers] is a mapping holding the [Authorization] entry and
    nothing else; that config has no other property, except for [get], where
    it has [responseType: 'json']. *)
Theorem X11_no_config_argument
    (this : HttpClient.t) (resolver : token_resolver) (token : string)
    (url : string) (body : value) (w : world) :
  tokenResolverFunction this = Some resolver ->
  resolver (resolver_calls w) = Ok token ->
  let handed (props : gmap string value) (call : M AxiosResponse) : Prop :=
    exists (method : string) (b : option value) (c : loc) (w2 : world) (h : loc),
      call w = Axios.verb transport method (client this) url b c w2 /\
      objectStore w !! c = None /\
      objectStore w2 !! c = Some {| obj_headers := Some h; obj_props := props |} /\
      headerStore w2 !! h = Some {[ "Authorization" := "Bearer " +:+ token ]} /\
      resolver_calls w2 = S (resolver_calls w) in
  handed {[ "responseType" := VString "json" ]} (get transport this url None) /\
  every_assigning_verb transport this url body None (handed ∅).
Proof.
  intros Hres Htok handed. subst handed.
  assert (G : forall dflt : jsobject,
            obj_headers dflt = None ->
            let c0 := fresh (dom (objectStore w)) in
            let w0 := with_objectStore (<[c0 := dflt]> (objectStore w)) w in
            object_at w0 c0 = dflt /\
            exists h w1,
              createHeadersWithResolvedToken this None w0 = (Ok h, w1) /\
              headerStore w1 !! h = Some {[ "Authorization" := "Bearer " +:+ token ]} /\
              objectStore w1 = objectStore w0 /\
              resolver_calls w1 = S (resolver_calls w)).
  { intros dflt Hd c0 w0. split.
    - unfold object_at, w0. simpl. rewrite lookup_insert_eq. reflexivity.
    - destruct (createHeaders_injects this resolver token None w0 Hres Htok)
        as (h & w1 & base & E & Hh & Hb & Ho & Hn).
      + intros l [=].
      + exists h, w1. split; [exact E|].
        rewrite (Hb eq_refl), insert_empty in Hh. repeat split; assumption. }
  split.
  - destruct (G json_config eq_refl) as (Hat & h & w1 & E & Hh & Ho & Hn).
    unfold get, default_param, bind, new_object, read_object, ret.
    cbn beta iota zeta. rewrite Hat. simpl obj_headers. rewrite E.
    eexists _, _, _, _, h. split; [reflexivity|]. simpl.
    rewrite Ho. simpl.
    split. { apply fresh_insert_None. }
    split. { rewrite lookup_insert_eq. reflexivity. }
    split; assumption.
  - destruct (G empty_config eq_refl) as (Hat & h & w1 & E & Hh & Ho & Hn).
    unfold every_assigning_verb, post, put, patch, HttpClient.delete,
      HttpClient.head, options, default_param, bind, new_object, read_object,
      assign_headers, ret.
    cbn beta iota zeta. rewrite Hat. simpl obj_headers. rewrite E.
    assert (Hat1 : object_at w1 (fresh (dom (objectStore w))) = empty_config).
    { unfold object_at. rewrite Ho. simpl. rewrite lookup_insert_eq. reflexivity. }
    rewrite Hat1.
    repeat split; eexists _, _, _, _, h; (split; [reflexivity|]); simpl;
      (split; [apply fresh_object_loc|]);
      (split; [apply lookup_insert_eq|]); (split; assumption).
Qed.

End HandedOver.

(** *** A config object used twice *)

Section ConfigReuse.

Import Axios HttpClient.

Variable uuid_v4 : nat -> string.
Variable transport : nat -> loc -> outcome AxiosResponse.

(** A config whose headers bind [Authorization] to a non-empty string stops
    every verb method of a facade with a resolver. *)
Lemma conflict_in_every_verb
    (this : HttpClient.t) (resolver : token_resolver)
    (l c : loc) (h : headers_obj) (o : jsobject) (s url : string) (body : value)
    (w : world) :
  tokenResolverFunction this = Some resolver ->
  objectStore w !! c = Some o ->
  obj_headers o = Some l ->
  headerStore w !! l = Some h ->
  h !! "Authorization" = Some s ->
  s <> "" ->
  every_verb transport this url body (Some c) (fun call =>
    call w = (Throw (new_Error conflict_message), w)).
Proof.
  intros Hres Hc Ho Hl Hauth Hs.
  assert (E : createHeadersWithResolvedToken this (Some l) w
              = (Throw (new_Error conflict_message), w)).
  { rewrite (createHeaders_with_resolver this resolver l w Hres).
    rewrite (headers_at_Some w l h Hl).
    assert (T : truthy (header_value h "Authorization") = true).
    { apply header_value_truthy. exists s. split; assumption. }
    rewrite T. reflexivity. }
  unfold every_verb, every_assigning_verb.
  unfold get, post, put, patch, HttpClient.delete, HttpClient.head, options.
  unfold default_param, bind, ret, read_object. simpl.
  rewrite (object_at_Some w c o Hc), Ho, E.
  repeat split.
Qed.

(** X15.  On a facade with a token resolver whose client carries the
    facade's own pair of interceptors and no other, a config object that has
    been through [post], [put], [patch], [delete], [head] or [options] once
    cannot be used again: that call has left the injected [Authorization]
    entry in the caller's object, so any further verb method given the same
    object throws the conflict error, without invoking the resolver or
    reaching the transport. *)
Theorem X15_config_cannot_be_reused
    (this : HttpClient.t) (resolver : token_resolver)
    (token : string) (url url' : string) (body body' : value)
    (c : loc) (o : jsobject) (w : world) :
  own_interceptors_only uuid_v4 this ->
  tokenResolverFunction this = Some resolver ->
  resolver (resolver_calls w) = Ok token ->
  objectStore w !! c = Some o ->
  (forall l, obj_headers o = Some l ->
             truthy (header_value (headers_at w l) "Authorization") = false) ->
  every_assigning_verb transport this url body (Some c) (fun first =>
    every_verb transport this url' body' (Some c) (fun second =>
      second (snd (first w))
      = (Throw (new_Error conflict_message), snd (first w)))).
Proof.
  intros [Hq Hs] Hres Htok Hc Hauth.
  destruct (createHeaders_injects this resolver token (obj_headers o) w
              Hres Htok Hauth)
    as (h & w1 & base & E & Hh & _ & Ho & _).
  pose proof (assigning_verbs_hand_over transport this url body c o h w w1 Hc E)
    as Hover.
  simpl in Hover.
  set (w2 := with_objectStore
               (<[c := {| obj_headers := Some h; obj_props := obj_props o |}]>
                  (objectStore w)) w1) in *.
  assert (Hafter : forall method b,
            let w' := snd (Axios.verb transport method (client this) url b c w2) in
            every_verb transport this url' body' (Some c)
              (fun second => second w' = (Throw (new_Error conflict_message), w'))).
  { intros method b w'.
    apply (conflict_in_every_verb this resolver h c
             (<["Authorization" := "Bearer " +:+ token]> base)
             {| obj_headers := Some h; obj_props := obj_props o |}
             ("Bearer " +:+ token) url' body' w' Hres).
    - apply (verb_keeps_objects uuid_v4 transport _ _ method url b c c _ w2 Hq Hs).
      unfold w2. simpl. apply lookup_insert_eq.
    - reflexivity.
    - destruct (facade_verb_summary uuid_v4 transport _ _ method url b c w2 Hq Hs)
        as (_ & _ & _ & _ & Hhs & _).
      unfold w'. rewrite Hhs. exact Hh.
    - apply lookup_insert_eq.
    - apply bearer_nonempty. }
  destruct Hover as (H1 & H2 & H3 & H4 & H5 & H6).
  unfold every_assigning_verb.
  rewrite H1, H2, H3, H4, H5, H6.
  repeat split; apply Hafter.
Qed.

End ConfigReuse.

(** *** A facade without a token resolver, and a request without a URL *)

Section WithoutResolver.

Import Axios HttpClient.

Variable uuid_v4 : nat -> string.
Variable transport : nat -> loc -> outcome AxiosResponse.

(** X9.  On a facade without a token resolver the six assigning verb methods
    change nothing before they hand over a config that has headers: the
    assignment writes back the reference that was there.  A config without
    headers gets one: a new, empty mapping. *)
Theorem X9_without_resolver
    (this : HttpClient.t) (url : string) (body : value)
    (c : loc) (o : jsobject) (w : world) :
  tokenResolverFunction this = None ->
  objectStore w !! c = Some o ->
  (forall l, obj_headers o = Some l ->
     every_assigning_verb transport this url body (Some c) (fun call =>
       exists (method : string) (b : option value),
         call w = Axios.verb transport method (client this) url b c w)) /\
  (obj_headers o = None ->
     every_assigning_verb transport this url body (Some c) (fun call =>
       exists (method : string) (b : option value) (w2 : world) (h : loc),
         call w = Axios.verb transport method (client this) url b c w2 /\
         headerStore w !! h = None /\
         headerStore w2 !! h = Some ∅ /\
         objectStore w2 !! c = Some {| obj_headers := Some h; obj_props := obj_props o |} /\
         trace w2 = trace w)).
Proof.
  intros Hnone Hc. split.
  - intros l Ho.
    assert (E : createHeadersWithResolvedToken this (obj_headers o) w = (Ok l, w)).
    { rewrite Ho. unfold createHeadersWithResolvedToken. rewrite Hnone. reflexivity. }
    pose proof (assigning_verbs_hand_over transport this url body c o l w w Hc E) as H.
    simpl in H.
    assert (Hid : with_objectStore
                    (<[c := {| obj_headers := Some l; obj_props := obj_props o |}]>
                       (objectStore w)) w = w).
    { destruct w as [hs os rid t]. unfold with_objectStore. simpl in *.
      f_equal. apply insert_id. rewrite Hc. f_equal.
      destruct o as [oh op]. simpl in Ho. subst oh. reflexivity. }
    rewrite Hid in H. destruct H as (H1 & H2 & H3 & H4 & H5 & H6).
    unfold every_assigning_verb. rewrite H1, H2, H3, H4, H5, H6.
    repeat split; eexists _, _; reflexivity.
  - intros Ho.
    assert (E : createHeadersWithResolvedToken this (obj_headers o) w
                = (Ok (fresh (dom (headerStore w))),
                   with_headerStore (<[fresh (dom (headerStore w)) := ∅]>
                                       (headerStore w)) w)).
    { rewrite Ho. unfold createHeadersWithResolvedToken. rewrite Hnone. reflexivity. }
    pose proof (assigning_verbs_hand_over transport this url body c o _ w _ Hc E) as H.
    simpl in H. destruct H as (H1 & H2 & H3 & H4 & H5 & H6).
    unfold every_assigning_verb. rewrite H1, H2, H3, H4, H5, H6.
    repeat split; eexists _, _, _, _; (split; [reflexivity|]); simpl;
      (split; [apply fresh_header_loc|]);
      (split; [apply lookup_insert_eq|]);
      (split; [apply lookup_insert_eq | reflexivity]).
Qed.

(** X14.  On a facade whose client carries the facade's own pair of
    interceptors and no other, an instance method called with the empty
    string for a URL ends with the MissingURL error and leaves two log events
    and nothing else besides the generated id: the "HTTP Request" event, and,
    because the thrown error passes through the failure handler of the
    inbound interceptor, an "HTTP Response Error" event at INFO that carries
    the MissingURL error and no request id. *)
Theorem X14_missing_url_is_logged_as_response_error
    (this : HttpClient.t) (method : string) (body : option value)
    (config : loc) (w : world) :
  own_interceptors_only uuid_v4 this ->
  exists w',
    Axios.verb transport method (client this) "" body config w
      = (Throw (new_Error missing_url_message), w') /\
    trace w'
    = (trace w ++ [EvUuid;
                   EvLog (logFunction this)
                     {| title := "HTTP Request"; level := "INFO";
                        log_requestId := VString (uuid_v4 (uuid_calls w));
                        detail := RequestInfo (VString method) (VString "") |}
                     [VBool false];
                   EvLog (logFunction this)
                     {| title := "HTTP Response Error"; level := "INFO";
                        log_requestId := VUndefined;
                        detail := ExceptionInfo (new_Error missing_url_message) |}
                     []])%list.
Proof.
  intros [Hq Hs].
  rewrite (facade_verb_eq uuid_v4 transport _ _ method "" body config w Hq Hs).
  eexists. split; [reflexivity|]. simpl.
  unfold request_event. rewrite merged_config_method, merged_config_url.
  rewrite <- !app_assoc. reflexivity.
Qed.

End WithoutResolver.

(** ** The further properties at concrete inputs *)

Lemma plain_client_own : own_interceptors_only Examples.uuids Examples.plain_client.
Proof. split; reflexivity. Defined.

Lemma token_client_own : own_interceptors_only Examples.uuids Examples.token_client.
Proof. split; reflexivity. Defined.

Lemma X3_witness :
  let w := Examples.world_with Examples.accept_only Examples.timeout_prop in
  exists w',
    HttpClient.post Examples.network_down
      (HttpClient.constructor Examples.uuids (Some MoreExamples.rejecting_options))
      "https://api.example/x" (VNumber 2) (Some 1%positive) w
    = (Throw MoreExamples.service_down, w') /\
    trace w' = [EvTokenResolver] /\
    objectStore w' = objectStore w.
Proof.
  intros w.
  pose proof
    (X3_resolver_rejection_reaches_caller Examples.network_down
       (HttpClient.constructor Examples.uuids (Some MoreExamples.rejecting_options))
       MoreExamples.rejecting MoreExamples.service_down
       "https://api.example/x" (VNumber 2) 1%positive
       {| obj_headers := Some 1%positive; obj_props := Examples.timeout_prop |} w) as H.
  destruct H as (_ & (w' & Hp & Ht & Ho & _) & _).
  - reflexivity.
  - reflexivity.
  - vm_compute. reflexivity.
  - intros l [= <-]. vm_compute. reflexivity.
  - exists w'. split; [exact Hp|]. split; [exact Ht | exact Ho].
Defined.

Lemma X4_witness :
  let w := Examples.world_with Examples.accept_only Examples.timeout_prop in
  exists w',
    Axios.verb MoreExamples.answering "get" (HttpClient.client Examples.plain_client)
      "https://api.example/x" None 1%positive w
    = (Ok MoreExamples.ok_response, w') /\
    logged (trace w') = [("HTTP Request", VString (Examples.uuids 0))] /\
    adapter_calls w' = 1.
Proof.
  intros w.
  destruct (X4_answered_request Examples.uuids MoreExamples.answering
              Examples.plain_client "get" "https://api.example/x" None 1%positive
              MoreExamples.ok_response w)
    as (w' & Hr & Ht & _).
  - exact plain_client_own.
  - discriminate.
  - reflexivity.
  - exists w'. split; [exact Hr|]. unfold adapter_calls. rewrite Ht.
    split; vm_compute; reflexivity.
Defined.

Lemma X5_witness :
  let w := Examples.world_with Examples.accept_only Examples.timeout_prop in
  exists w',
    Axios.verb Examples.network_down "get" (HttpClient.client Examples.plain_client)
      "https://api.example/x" None 1%positive w
    = (Throw (new_Error "Network Error"), w') /\
    logged (trace w')
    = [("HTTP Request", VString (Examples.uuids 0));
       ("HTTP Response Error", VUndefined)].
Proof.
  intros w.
  destruct (X5_rejected_request Examples.uuids Examples.network_down
              Examples.plain_client "get" "https://api.example/x" None 1%positive
              {| message := "Network Error"; err_config := VRef 2%positive;
                 err_request := VUndefined; err_response := None |} w)
    as (w' & rid & Hr & Ht & Hid & _).
  - exact plain_client_own.
  - discriminate.
  - vm_compute. reflexivity.
  - exists w'. split; [exact Hr|].
    assert (Hw : w' = snd (Axios.verb Examples.network_down "get"
                             (HttpClient.client Examples.plain_client)
                             "https://api.example/x" None 1%positive w))
      by (rewrite Hr; reflexivity).
    rewrite Ht, (Hid 2%positive eq_refl eq_refl), Hw. vm_compute. reflexivity.
Defined.

Lemma X6_witness :
  let r := HttpClient.get Examples.network_down Examples.plain_client
             "https://api.example/x" None initial_world in
  fst r = Throw (new_Error "Network Error") /\
  serializeError (new_Error "Network Error") = None.
Proof.
  intros r.
  assert (E : r = (Throw (new_Error "Network Error"), snd r))
    by (vm_compute; reflexivity).
  pose proof
    (proj1 (X6_thrown_errors_carry_message_only Examples.uuids Examples.network_down
              Examples.plain_client "https://api.example/x" VNull None
              plain_client_own)
       initial_world (new_Error "Network Error") (snd r) E) as H.
  destruct H as [[_ Hs] | (resolver & Hres & _)].
  - split; [rewrite E; reflexivity | exact Hs].
  - discriminate Hres.
Defined.

Lemma X7_witness :
  exists e,
    fst (HttpClient.post Examples.network_down Examples.plain_client "" (VNumber 2)
           None initial_world) = Throw e /\
    adapter_calls (snd (HttpClient.post Examples.network_down Examples.plain_client
                          "" (VNumber 2) None initial_world)) = 0 /\
    e = new_Error HttpClient.missing_url_message.
Proof.
  pose proof
    (X7_empty_url_never_sent Examples.uuids Examples.network_down
       Examples.plain_client (VNumber 2) None plain_client_own) as H.
  destruct H as (_ & Hpost & _).
  destruct (Hpost initial_world) as (e & He & Ha & Hm).
  exists e. split; [exact He|]. split; [exact Ha|]. apply Hm. reflexivity.
Defined.

Lemma X8_witness :
  (exists rid : value,
     HttpClient.requestRejected ConsoleLog
       (ReasonError {| message := "bad config"; err_config := VRef 1%positive;
                       err_request := VUndefined; err_response := None |})
       (Examples.world_with ∅ {[ "requestId" := VString "" ]})
     = (Throw (new_Error "bad config"),
        record (EvLog ConsoleLog
                  {| title := "HTTP Request Error"; level := "WARN";
                     log_requestId := rid;
                     detail := ExceptionInfo
                                 {| message := "bad config"; err_config := VRef 1%positive;
                                    err_request := VUndefined; err_response := None |} |} [])
          (Examples.world_with ∅ {[ "requestId" := VString "" ]})) /\
     rid = VString "") /\
  fst (HttpClient.requestRejected ConsoleLog ReasonUndefined initial_world)
  = Throw (new_Error "Cannot read property 'message' of undefined").
Proof.
  split.
  - destruct (X8_request_error_handler ConsoleLog
                (ReasonError {| message := "bad config"; err_config := VRef 1%positive;
                                err_request := VUndefined; err_response := None |})
                (Examples.world_with ∅ {[ "requestId" := VString "" ]}))
      as (rid & Hr & Hid & _).
    exists rid. split; [exact Hr|].
    rewrite (Hid 1%positive eq_refl); vm_compute; reflexivity.
  - rewrite (X8_request_error_handler ConsoleLog ReasonUndefined initial_world).
    reflexivity.
Defined.

Lemma X9_witness :
  let w := Examples.world_with Examples.bearer_z Examples.timeout_prop in
  exists (method : string) (b : option value),
    HttpClient.post Examples.network_down Examples.plain_client
      "https://api.example/x" (VNumber 2) (Some 1%positive) w
    = Axios.verb Examples.network_down method
        (HttpClient.client Examples.plain_client) "https://api.example/x" b 1%positive w.
Proof.
  intros w.
  destruct (X9_without_resolver Examples.network_down Examples.plain_client
              "https://api.example/x" (VNumber 2) 1%positive
              {| obj_headers := Some 1%positive; obj_props := Examples.timeout_prop |} w)
    as (H & _).
  - reflexivity.
  - vm_compute. reflexivity.
  - exact (proj1 (H 1%positive eq_refl)).
Defined.

Lemma X10_witness :
  let w := Examples.world_with Examples.accept_only MoreExamples.undefined_response_type in
  exists (arg : loc) (w3 : world) (sent : jsobject),
    HttpClient.get Examples.network_down Examples.plain_client
      "https://api.example/x" (Some 1%positive) w
    = Axios.verb Examples.network_down "get" (HttpClient.client Examples.plain_client)
        "https://api.example/x" None arg w3 /\
    objectStore w3 !! arg = Some sent /\
    obj_props sent !! "responseType" = Some VUndefined /\
    obj_props sent !! "timeout" = Some (VNumber 3000).
Proof.
  intros w.
  destruct (X10_get_response_type Examples.network_down Examples.plain_client
              "https://api.example/x" 1%positive
              {| obj_headers := Some 1%positive;
                 obj_props := MoreExamples.undefined_response_type |}
              1%positive w w)
    as (arg & w3 & sent & Hg & Hs & _ & Hrt & Hother).
  - vm_compute. reflexivity.
  - reflexivity.
  - exists arg, w3, sent. split; [exact Hg|]. split; [exact Hs|]. split.
    + rewrite Hrt. vm_compute. reflexivity.
    + rewrite (Hother "timeout") by discriminate. vm_compute. reflexivity.
Defined.

Lemma X11_witness :
  exists (method : string) (b : option value) (c : loc) (w2 : world) (h : loc),
    HttpClient.get Examples.network_down Examples.token_client
      "https://api.example/x" None initial_world
    = Axios.verb Examples.network_down method (HttpClient.client Examples.token_client)
        "https://api.example/x" b c w2 /\
    objectStore w2 !! c
    = Some {| obj_headers := Some h;
              obj_props := {[ "responseType" := VString "json" ]} |} /\
    headerStore w2 !! h = Some {[ "Authorization" := "Bearer abc123" ]}.
Proof.
  destruct (X11_no_config_argument Examples.network_down Examples.token_client
              Examples.token_of "abc123" "https://api.example/x" VNull initial_world)
    as ((method & b & c & w2 & h & Hg & _ & Ho & Hh & _) & _).
  - reflexivity.
  - reflexivity.
  - exists method, b, c, w2, h. split; [exact Hg|]. split; [exact Ho | exact Hh].
Defined.

Lemma X12_witness :
  let w' := snd (HttpClient.get Examples.network_down Examples.token_client
                   "https://api.example/x" None initial_world) in
  resolver_calls w' <= 1 /\ uuid_calls w' <= 1 /\ adapter_calls w' <= 1.
Proof.
  intros w'.
  destruct (proj1 (X12_at_most_one_of_each_per_call Examples.uuids
                     Examples.network_down Examples.token_client
                     "https://api.example/x" VNull None token_client_own)
              initial_world)
    as ((_ & Hr) & (_ & Hu) & (_ & Ha) & _).
  split; [exact Hr|]. split; [exact Hu | exact Ha].
Defined.

Lemma X13_witness :
  requestId
    (snd (Axios.verb Examples.network_down "get"
            (HttpClient.client Examples.plain_client) "" None 1%positive
            (Examples.world_with Examples.accept_only Examples.timeout_prop)))
  = Examples.uuids 0.
Proof.
  exact (proj1 (X13_request_overwrites_requestId Examples.uuids Examples.network_down
                  Examples.plain_client "get" "" None 1%positive
                  (Examples.world_with Examples.accept_only Examples.timeout_prop)
                  plain_client_own)).
Defined.

Lemma X14_witness :
  exists w',
    Axios.verb Examples.network_down "get" (HttpClient.client Examples.plain_client)
      "" None 1%positive
      (Examples.world_with Examples.accept_only Examples.timeout_prop)
    = (Throw (new_Error HttpClient.missing_url_message), w') /\
    logged (trace w')
    = [("HTTP Request", VString (Examples.uuids 0));
       ("HTTP Response Error", VUndefined)].
Proof.
  destruct (X14_missing_url_is_logged_as_response_error Examples.uuids
              Examples.network_down Examples.plain_client "get" None 1%positive
              (Examples.world_with Examples.accept_only Examples.timeout_prop)
              plain_client_own)
    as (w' & Hr & Ht).
  exists w'. split; [exact Hr|]. rewrite Ht. vm_compute. reflexivity.
Defined.

Lemma X15_witness :
  let w := Examples.world_with Examples.accept_only Examples.timeout_prop in
  let w' := snd (HttpClient.post Examples.network_down Examples.token_client
                   "https://api.example/x" (VNumber 2) (Some 1%positive) w) in
  HttpClient.post Examples.network_down Examples.token_client
    "https://api.example/y" (VNumber 3) (Some 1%positive) w'
  = (Throw (new_Error HttpClient.conflict_message), w').
Proof.
  intros w w'.
  pose proof
    (X15_config_cannot_be_reused Examples.uuids Examples.network_down
       Examples.token_client Examples.token_of "abc123"
       "https://api.example/x" "https://api.example/y" (VNumber 2) (VNumber 3)
       1%positive
       {| obj_headers := Some 1%positive; obj_props := Examples.timeout_prop |} w
       token_client_own) as H.
  destruct H as ((_ & Hpost & _) & _).
  - reflexivity.
  - reflexivity.
  - vm_compute. reflexivity.
  - intros l [= <-]. vm_compute. reflexivity.
  - exact Hpost.
Defined.
